(** * NSEA: mock emission generator, profile store and threshold alerts

    A shallow embedding of the mock-data generator (the module
    [./_core/mockDataGenerator] imported by the router; its text is the
    block "Mock Data Generator for Realistic Gas Emission Data" of
    [server/_core/supabase.ts]: profile store, [generateValue],
    [generateMockEmissionReading], [generateHistoricalData],
    [resetVehicleProfile]) and of the threshold checks of the
    [emissions.ingest], [emissions.generateMock] and
    [emissions.populateHistory] procedures of [server/routers.ts].

    Numbers.  The generator is embedded twice.  In the first model a
    JavaScript [number] is an exact rational or [NaN]: binary64 rounding
    error, signed zeros and overflow are left out, and [undefined] in a
    numeric slot is identified with [NaN] (both turn every arithmetic
    result into [NaN] and fail [=== 0] and [>]).  It carries the
    properties of the profile store, of the draws and of the router,
    and the bounds that rounding does not disturb.  In the second model,
    module [B64], a [number] is an IEEE 754 binary64 value; it carries
    what depends on rounding, on the infinities or on the sign of zero:
    the value formula, the lower clamp and the length of a backfill.

    Randomness.  [Math.random()] reads the next element of a fixed
    sequence [rnd] (of rationals, or of binary64 values in [B64]); the
    world counts the draws made so far.

    State.  The module-level [Map] of profiles is a [gmap] threaded
    through a state monad together with the draw counter.  Vehicle
    identifiers are the integer keys of the [vehicles] table.  A profile
    object is shared between the map and its users; the one mutation,
    [profile.lastReading = ...], is written back into the map. *)

From Stdlib Require Import ZArith QArith Qround Qminmax Lia Lqa.
From Stdlib Require Import String Ascii List.
From Stdlib Require Import PrimFloat FloatOps SpecFloat Uint63.
From stdpp Require Import gmap strings.
Import ListNotations.

Set Warnings "-inexact-float".

Local Open Scope Q_scope.

(** ** Numbers *)

Module JS.

Inductive number : Type :=
| Num (q : Q)
| NaN.

Definition lift2 (f : Q -> Q -> Q) (a b : number) : number :=
  match a, b with
  | Num x, Num y => Num (f x y)
  | _, _ => NaN
  end.

Definition add : number -> number -> number := lift2 Qplus.
Definition sub : number -> number -> number := lift2 Qminus.
Definition mul : number -> number -> number := lift2 Qmult.

(** [a / b] for a non-zero literal divisor (the generator only divides
    by [10]). *)
Definition div : number -> number -> number := lift2 Qdiv.

(** [Math.max], [Math.min]: [NaN] if either argument is [NaN]. *)
Definition Math_max : number -> number -> number := lift2 Qmax.
Definition Math_min : number -> number -> number := lift2 Qmin.

(** [Math.round]: the nearest integer, halves towards plus infinity. *)
Definition Math_round (a : number) : number :=
  match a with
  | Num x => Num (inject_Z (Qfloor (x + (1 # 2))))
  | NaN => NaN
  end.

(** [a === b] on numbers: numeric equality, false on [NaN]. *)
Definition strict_eq (a b : number) : bool :=
  match a, b with
  | Num x, Num y => Qeq_bool x y
  | _, _ => false
  end.

(** [a > b]: false as soon as one side is [NaN]. *)
Definition gt (a b : number) : bool :=
  match a, b with
  | Num x, Num y => negb (Qle_bool x y)
  | _, _ => false
  end.

(** Truthiness of a number: [0] and [NaN] are falsy. *)
Definition truthy (a : number) : bool :=
  match a with
  | Num x => negb (Qeq_bool x 0)
  | NaN => false
  end.

(** Numeric equality lifted to [number]; [NaN] is only related to
    itself here (this is equality of model values, not [===]). *)
Definition eqv (a b : number) : Prop :=
  match a, b with
  | Num x, Num y => x == y
  | NaN, NaN => True
  | _, _ => False
  end.

(** [a ?? b] *)
Definition nullish {A : Type} (a : option A) (b : A) : A :=
  match a with
  | Some v => v
  | None => b
  end.

(** [String.prototype.toLowerCase] on the ASCII letters; every other
    byte is kept (no non-ASCII character lowers to a letter that occurs
    in a key of the baseline table). *)
Definition lower_ascii (c : ascii) : ascii :=
  let n := nat_of_ascii c in
  if (65 <=? n)%nat && (n <=? 90)%nat then ascii_of_nat (n + 32) else c.

Fixpoint toLowerCase (s : string) : string :=
  match s with
  | EmptyString => EmptyString
  | String c s' => String (lower_ascii c) (toLowerCase s')
  end.

End JS.

Import JS.

Declare Scope js_scope.
Delimit Scope js_scope with js.
Bind Scope js_scope with number.
Infix "+" := JS.add : js_scope.
Infix "-" := JS.sub : js_scope.
Infix "*" := JS.mul : js_scope.
Infix "/" := JS.div : js_scope.
Infix "≃" := JS.eqv (at level 70, no associativity).

Coercion Num : Q >-> number.

(** ** Data model *)

Record EmissionBaseline : Type := mkBaseline {
  co2 : number;
  co : number;
  nox : number;
  pmLevel : number;
}.

Inductive Trend : Type := stable | increasing | decreasing | volatile.

Record VehicleProfile : Type := mkProfile {
  vehicleId : Z;
  baseline : EmissionBaseline;
  lastReading : option EmissionBaseline;
  (** [None]: [trends[i]] read out of range, i.e. [undefined]. *)
  trend : option Trend;
  volatility : number;
}.

Definition petrol : EmissionBaseline := mkBaseline 450 8 35 25.
Definition diesel : EmissionBaseline := mkBaseline 550 12 45 40.
Definition hybrid : EmissionBaseline := mkBaseline 300 5 20 15.
Definition electric : EmissionBaseline := mkBaseline 0 0 0 5.
Definition cng : EmissionBaseline := mkBaseline 400 6 25 20.

(** The own properties of the object literal [EMISSION_BASELINES]. *)
Definition EMISSION_BASELINES : gmap string EmissionBaseline :=
  <["petrol"%string := petrol]>
  (<["diesel"%string := diesel]>
  (<["hybrid"%string := hybrid]>
  (<["electric"%string := electric]>
  (<["cng"%string := cng]> ∅)))).

(** The properties an object literal inherits from [Object.prototype]. *)
Definition Object_prototype_keys : list string :=
  ["constructor"; "__proto__"; "hasOwnProperty"; "isPrototypeOf";
   "propertyIsEnumerable"; "toString"; "toLocaleString"; "valueOf";
   "__defineGetter__"; "__defineSetter__"; "__lookupGetter__";
   "__lookupSetter__"]%string.

(** What [EMISSION_BASELINES[key]] evaluates to: an own entry, a member
    inherited through the prototype chain (a function or
    [Object.prototype] itself, truthy, with none of the four gas
    fields), or [undefined]. *)
Inductive Property : Type :=
| Own (b : EmissionBaseline)
| Inherited
| Undefined.

Definition EMISSION_BASELINES_get (key : string) : Property :=
  match EMISSION_BASELINES !! key with
  | Some b => Own b
  | None =>
      if bool_decide (key ∈ Object_prototype_keys) then Inherited
      else Undefined
  end.

(** The four gas fields read off an inherited member are [undefined]. *)
Definition no_gas_fields : EmissionBaseline := mkBaseline NaN NaN NaN NaN.

(** [EMISSION_BASELINES[key] || EMISSION_BASELINES.petrol], seen
    through its four gas fields. *)
Definition baseline_or_petrol (key : string) : EmissionBaseline :=
  match EMISSION_BASELINES_get key with
  | Own b => b
  | Inherited => no_gas_fields
  | Undefined => petrol
  end.

Definition trends : list Trend := [stable; increasing; decreasing; volatile].

(** [trends[i]] for an integer-valued [i]. *)
Definition trends_at (i : Z) : option Trend :=
  if (0 <=? i)%Z then trends !! Z.to_nat i else None.

(** ** World and state monad *)

Record World : Type := mkWorld {
  vehicleProfiles : gmap Z VehicleProfile;
  draws : nat;
}.

Definition M (A : Type) : Type := World -> A * World.

Definition ret {A : Type} (a : A) : M A := fun w => (a, w).

Definition bind {A B : Type} (m : M A) (k : A -> M B) : M B :=
  fun w => let '(a, w') := m w in k a w'.

Notation "'let*' x := m 'in' k" := (bind m (fun x => k))
  (at level 10, x name, m at level 100, k at level 200).
Notation "m ;; k" := (bind m (fun _ => k))
  (at level 100, k at level 200, right associativity).

Definition set_profile (vid : Z) (p : VehicleProfile) : M unit :=
  fun w => (tt, mkWorld (<[vid := p]> (vehicleProfiles w)) (draws w)).

Definition delete_profile (vid : Z) : M unit :=
  fun w => (tt, mkWorld (delete vid (vehicleProfiles w)) (draws w)).

Section Generator.

(** The sequence of values returned by successive [Math.random()]. *)
Variable rnd : nat -> Q.

Definition Math_random : M number :=
  fun w => (Num (rnd (draws w)), mkWorld (vehicleProfiles w) (S (draws w))).

(** [Math.floor(r * trends.length)] *)
Definition trend_index (r : number) : option Z :=
  match r with
  | Num x => Some (Qfloor (x * 4))
  | NaN => None
  end.

Definition pick_trend (r : number) : option Trend :=
  match trend_index r with
  | Some i => trends_at i
  | None => None
  end.

(** The object literal stored by [getVehicleProfile]; [r1] and [r2] are
    its two [Math.random()] in evaluation order. *)
Definition fresh_profile (vid : Z) (fuelType : string) (r1 r2 : number)
  : VehicleProfile :=
  let base := baseline_or_petrol (toLowerCase fuelType) in
  {| vehicleId := vid;
     baseline := base;
     lastReading := Some base;
     trend := pick_trend r1;
     volatility := (Num (1 # 10) + r2 * Num (2 # 10))%js |}.

(** [vehicleProfiles.has(vehicleId)] is the case analysis on the lookup;
    the final [vehicleProfiles.get(vehicleId)!] returns the profile found
    or the one just stored. *)
Definition getVehicleProfile (vid : Z) (fuelType : string) : M VehicleProfile :=
  fun w =>
    match vehicleProfiles w !! vid with
    | Some p => (p, w)
    | None =>
        (let* r1 := Math_random in
         let* r2 := Math_random in
         let p := fresh_profile vid fuelType r1 r2 in
         set_profile vid p ;;
         ret p) w
    end.

(** The [switch (trend)] of [generateMockEmissionReading]; [r] is the
    one [Math.random()] of the branch taken.  [undefined] falls to
    [default], which shares the body of ['stable']. *)
Definition trendMultiplier (t : option Trend) (r : number) : number :=
  match t with
  | Some increasing => Num 1 + r * Num (5 # 100)
  | Some decreasing => Num 1 - r * Num (5 # 100)
  | Some volatile => Num (85 # 100) + r * Num (3 # 10)
  | Some stable | None => Num (95 # 100) + r * Num (1 # 10)
  end%js.

(** The clamp of [generateValue]. *)
Definition clamp (baseValue newValue : number) : number :=
  if strict_eq baseValue (Num 0)
  then Math_max (Num 0) (Math_min newValue (Num 10))
  else Math_max (baseValue * Num (2 # 10))%js
                (Math_min newValue (baseValue * Num 2)%js).

(** [Math.round(newValue * 10) / 10] *)
Definition round1 (newValue : number) : number :=
  (Math_round (newValue * Num 10) / Num 10)%js.

(** The closure [generateValue]; [volatility] and [trendMultiplier] are
    the variables it captures.  Its four call sites pass both variation
    bounds, so the defaults [-0.15] and [0.15] are never taken. *)
Definition generateValue (volatility trendMultiplier : number)
    (baseValue : number) (lastValue : option number)
    (minVariation maxVariation : number) : M number :=
  let reference := nullish lastValue baseValue in
  let* u := Math_random in
  let variation := (minVariation + u * (maxVariation - minVariation))%js in
  let variationAmount := (reference * volatility * variation)%js in
  let newValue := (reference + variationAmount)%js in
  let newValue := (newValue * trendMultiplier)%js in
  let newValue := clamp baseValue newValue in
  ret (round1 newValue).

(** [profile.lastReading = r], on the object held by the map. *)
Definition set_lastReading (p : VehicleProfile) (r : EmissionBaseline)
  : VehicleProfile :=
  {| vehicleId := vehicleId p;
     baseline := baseline p;
     lastReading := Some r;
     trend := trend p;
     volatility := volatility p |}.

Definition generateMockEmissionReading (vid : Z) (fuelType : string)
  : M EmissionBaseline :=
  let* profile := getVehicleProfile vid fuelType in
  let base := baseline profile in
  let last := lastReading profile in
  let* rt := Math_random in
  let tm := trendMultiplier (trend profile) rt in
  let gen := generateValue (volatility profile) tm in
  let* rc := Math_random in
  let correlationFactor := (Num (7 # 10) + rc * Num (3 # 10))%js in
  let* v_co2 := gen (co2 base) (option_map co2 last)
                  (Num (-2 # 10) * correlationFactor)%js
                  (Num (2 # 10) * correlationFactor)%js in
  let* v_co := gen (co base) (option_map co last)
                  (Num (-25 # 100) * correlationFactor)%js
                  (Num (25 # 100) * correlationFactor)%js in
  let* v_nox := gen (nox base) (option_map nox last)
                  (Num (-2 # 10) * correlationFactor)%js
                  (Num (2 # 10) * correlationFactor)%js in
  let* v_pm := gen (pmLevel base) (option_map pmLevel last)
                  (Num (-3 # 10) * correlationFactor)%js
                  (Num (3 # 10) * correlationFactor)%js in
  let reading := mkBaseline v_co2 v_co v_nox v_pm in
  set_profile vid (set_lastReading profile reading) ;;
  ret reading.

Definition resetVehicleProfile (vid : Z) : M unit := delete_profile vid.

(** The value of [points]: the floor of a quotient of two finite
    numbers, which is infinite or [NaN] when the divisor is zero. *)
Inductive Bound : Type :=
| Finite (z : Z)
| PlusInfinity
| MinusInfinity
| NaNBound.

Definition points_of (hoursBack intervalMinutes : Q) : Bound :=
  if Qeq_bool intervalMinutes 0 then
    match hoursBack * 60 ?= 0 with
    | Gt => PlusInfinity
    | Lt => MinusInfinity
    | Eq => NaNBound
    end
  else Finite (Qfloor (hoursBack * 60 / intervalMinutes)).

(** [i <= points] *)
Definition le_bound (i : Z) (points : Bound) : bool :=
  match points with
  | Finite z => (i <=? z)%Z
  | PlusInfinity => true
  | MinusInfinity | NaNBound => false
  end.

(** The [for] loop of [generateHistoricalData]; [None] when the fuel
    runs out before the loop exits. *)
Fixpoint history_loop (fuel : nat) (vid : Z) (fuelType : string)
    (points : Bound) (i : Z) (data : list EmissionBaseline) (w : World)
  : option (list EmissionBaseline * World) :=
  match fuel with
  | O => None
  | S fuel' =>
      if le_bound i points then
        let '(reading, w') := generateMockEmissionReading vid fuelType w in
        history_loop fuel' vid fuelType points (i + 1)%Z
                     (data ++ [reading]) w'
      else Some (data, w)
  end.

Definition generateHistoricalData (fuel : nat) (vid : Z) (fuelType : string)
    (hoursBack : Q) (intervalMinutes : option Q) (w : World)
  : option (list EmissionBaseline * World) :=
  let intervalMinutes := nullish intervalMinutes 5 in
  let points := points_of hoursBack intervalMinutes in
  let '(_, w1) := resetVehicleProfile vid w in
  let '(_, w2) := getVehicleProfile vid fuelType w1 in
  history_loop fuel vid fuelType points 0 [] w2.

(** Calls into the module, for traces. *)
Inductive Op : Type :=
| OpGet (vid : Z) (fuelType : string)
| OpGenerate (vid : Z) (fuelType : string)
| OpReset (vid : Z)
| OpHistory (fuel : nat) (vid : Z) (fuelType : string)
            (hoursBack : Q) (intervalMinutes : option Q).

Definition step (o : Op) (w : World) : option World :=
  match o with
  | OpGet vid f => Some (snd (getVehicleProfile vid f w))
  | OpGenerate vid f => Some (snd (generateMockEmissionReading vid f w))
  | OpReset vid => Some (snd (resetVehicleProfile vid w))
  | OpHistory fuel vid f h i =>
      option_map snd (generateHistoricalData fuel vid f h i w)
  end.

Fixpoint run (ops : list Op) (w : World) : option World :=
  match ops with
  | [] => Some w
  | o :: ops' =>
      match step o w with
      | Some w' => run ops' w'
      | None => None
      end
  end.

(** [o] removes the profile of [vid]. *)
Definition resets (vid : Z) (o : Op) : bool :=
  match o with
  | OpReset v | OpHistory _ v _ _ _ => bool_decide (v = vid)
  | OpGet _ _ | OpGenerate _ _ => false
  end.

End Generator.

(** ** Threshold checks of the [emissions] router *)

Inductive Gas : Type := CO2 | CO | NOx | PM.

(** The [gasType] written to the alert row. *)
Definition gasType_of (g : Gas) : string :=
  match g with
  | CO2 => "CO2"
  | CO => "CO"
  | NOx => "NOx"
  | PM => "PM"
  end%string.

Record Alert : Type := mkAlert {
  alert_vehicleId : Z;
  gasType : string;
  measuredValue : number;
  thresholdValue : number;
}.

(** [const thresholds = { co2: 1000, co: 50, nox: 100, pmLevel: 100 }] *)
Definition thresholds : EmissionBaseline := mkBaseline 1000 50 100 100.

Definition field (g : Gas) (r : EmissionBaseline) : number :=
  match g with
  | CO2 => co2 r
  | CO => co r
  | NOx => nox r
  | PM => pmLevel r
  end.

(** The parsed input of [emissions.ingest]: every gas is optional. *)
Record IngestInput : Type := mkIngest {
  deviceId : string;
  in_co2 : option number;
  in_co : option number;
  in_nox : option number;
  in_pmLevel : option number;
}.

Definition input_field (g : Gas) (i : IngestInput) : option number :=
  match g with
  | CO2 => in_co2 i
  | CO => in_co i
  | NOx => in_nox i
  | PM => in_pmLevel i
  end.

(** One [if (input.x && input.x > thresholds.x) { await createAlert({...}) }]
    of [emissions.ingest]. *)
Definition ingest_check (vid : Z) (g : Gas) (i : IngestInput) : list Alert :=
  match input_field g i with
  | Some x =>
      if truthy x && gt x (field g thresholds)
      then [mkAlert vid (gasType_of g) x (field g thresholds)]
      else []
  | None => []
  end.

(** The alerts [emissions.ingest] creates, in creation order. *)
Definition ingest_alerts (vid : Z) (i : IngestInput) : list Alert :=
  ingest_check vid CO2 i ++ ingest_check vid CO i ++
  ingest_check vid NOx i ++ ingest_check vid PM i.

(** One [if (mockData.x > thresholds.x) { await createAlert({...}) }]. *)
Definition mock_check (vid : Z) (g : Gas) (r : EmissionBaseline) : list Alert :=
  if gt (field g r) (field g thresholds)
  then [mkAlert vid (gasType_of g) (field g r) (field g thresholds)]
  else [].

(** The alerts [emissions.generateMock] creates for one generated
    reading (the same code in both of its branches). *)
Definition generateMock_alerts (vid : Z) (r : EmissionBaseline) : list Alert :=
  mock_check vid CO2 r ++ mock_check vid CO r ++
  mock_check vid NOx r ++ mock_check vid PM r.

(** The alerts [emissions.populateHistory] creates for one reading of
    the backfill of a single vehicle; [r] is its [Math.random()]. *)
Definition populateHistory_alerts (vid : Z) (r : number)
    (data : EmissionBaseline) : list Alert :=
  if gt r (Num (9 # 10)) then mock_check vid CO2 data else [].

(** ** The generator as a function of its draws *)

(** The half-width of the variation interval of each gas, before it is
    scaled by the correlation factor. *)
Definition variation_bound (g : Gas) : Q :=
  match g with
  | CO2 => 2 # 10
  | CO => 25 # 100
  | NOx => 2 # 10
  | PM => 3 # 10
  end.

(** [0.7 + Math.random() * 0.3] *)
Definition correlation_of (rc : number) : number :=
  (Num (7 # 10) + rc * Num (3 # 10))%js.

(** The value [generateValue] returns for one gas, as a function of the
    profile and of the draws: the reference
    is the last reading when there is one and the baseline otherwise;
    the variation is the draw [u] placed between the bounds of the gas
    scaled by the correlation factor [cf]; the reference plus
    [reference * volatility * variation] is multiplied by the trend
    multiplier [tm], clamped and rounded to one decimal. *)
Definition spec_reference (p : VehicleProfile) (g : Gas) : number :=
  match lastReading p with
  | Some l => field g l
  | None => field g (baseline p)
  end.

Definition spec_variation (g : Gas) (cf u : number) : number :=
  let lo := (Num (- variation_bound g) * cf)%js in
  let hi := (Num (variation_bound g) * cf)%js in
  (lo + u * (hi - lo))%js.

Definition spec_value (p : VehicleProfile) (g : Gas) (tm cf u : number)
  : number :=
  let reference := spec_reference p g in
  let sum := (reference + reference * volatility p * spec_variation g cf u)%js in
  round1 (clamp (field g (baseline p)) (sum * tm)%js).

(** The reading produced from profile [p] when the six draws of one
    call are [rt] (trend), [rc] (correlation) and [u1..u4] (gases). *)
Definition next_reading (p : VehicleProfile) (rt rc u1 u2 u3 u4 : number)
  : EmissionBaseline :=
  let tm := trendMultiplier (trend p) rt in
  let cf := correlation_of rc in
  mkBaseline (spec_value p CO2 tm cf u1) (spec_value p CO tm cf u2)
             (spec_value p NOx tm cf u3) (spec_value p PM tm cf u4).

(** The position of a gas among the four [generateValue] calls. *)
Definition gas_index (g : Gas) : nat :=
  match g with
  | CO2 => 0
  | CO => 1
  | NOx => 2
  | PM => 3
  end.

(** ** Invariants of the profile store *)

(** Every stored profile satisfies [P]. *)
Definition profiles_all (P : VehicleProfile -> Prop) (w : World) : Prop :=
  forall (v : Z) (p : VehicleProfile), vehicleProfiles w !! v = Some p -> P p.

(** The profile of [vid] exists and satisfies [P]. *)
Definition profile_at (vid : Z) (P : VehicleProfile -> Prop) (w : World) : Prop :=
  exists p : VehicleProfile, vehicleProfiles w !! vid = Some p /\ P p.

(** [P] survives a generation call, whatever the six draws. *)
Definition generation_closed (P : VehicleProfile -> Prop) : Prop :=
  forall (p : VehicleProfile) (qt qc q1 q2 q3 q4 : Q),
    P p ->
    P (set_lastReading p
         (next_reading p (Num qt) (Num qc) (Num q1) (Num q2) (Num q3) (Num q4))).

(** No operation of [ops] removes the profile of [vid]. *)
Definition keeps (vid : Z) (ops : list Op) : bool :=
  forallb (fun o => negb (resets vid o)) ops.

(** The worlds the module can be in: those a trace of calls leads to
    from the empty store. *)
Definition reachable (rnd : nat -> Q) (w : World) : Prop :=
  exists (n : nat) (ops : list Op), run rnd ops (mkWorld ∅ n) = Some w.

(** ** The threshold evaluator as the specification words it *)

Definition threshold_of (g : Gas) : Q :=
  match g with
  | CO2 => 1000
  | CO => 50
  | NOx => 100
  | PM => 100
  end.

(** One entry for gas [g] when its value is present and strictly above
    the threshold, none otherwise. *)
Definition evaluate_gas (vid : Z) (g : Gas) (v : option number) : list Alert :=
  match v with
  | Some (Num x) =>
      if Qlt_le_dec (threshold_of g) x
      then [mkAlert vid (gasType_of g) (Num x) (Num (threshold_of g))]
      else []
  | Some NaN | None => []
  end.

Definition evaluate (vid : Z) (reading : Gas -> option number) : list Alert :=
  flat_map (fun g => evaluate_gas vid g (reading g)) [CO2; CO; NOx; PM].

(** A stored profile is well formed: its volatility is a number, it has
    a last reading, and every gas either has an integer baseline and a
    numeric last value or has no baseline at all. *)
Definition integral (a : number) : Prop := exists z : Z, a = Num (inject_Z z).

Definition numeric (a : number) : Prop := exists q : Q, a = Num q.

Definition well_formed (p : VehicleProfile) : Prop :=
  numeric (volatility p) /\
  exists l : EmissionBaseline,
    lastReading p = Some l /\
    forall g : Gas,
      (integral (field g (baseline p)) /\ numeric (field g l)) \/
      field g (baseline p) = NaN.

(** A profile of an electric vehicle whose last reading has no CO2, CO
    and NOx. *)
Definition emits_nothing (p : VehicleProfile) : Prop :=
  baseline p = electric /\
  numeric (volatility p) /\
  exists l : EmissionBaseline,
    lastReading p = Some l /\ co2 l ≃ Num 0 /\ co l ≃ Num 0 /\ nox l ≃ Num 0.

(** [p] carries the random choices and the baseline of [p0]. *)
Definition same_choices (p0 p : VehicleProfile) : Prop :=
  trend p = trend p0 /\ volatility p = volatility p0 /\ baseline p = baseline p0.


(** [Math.random()] returns a value in [0, 1). *)
Definition unit_draws (rnd : nat -> Q) : Prop :=
  forall n : nat, 0 <= rnd n < 1.

(** ** Example inputs *)

(** A constant random source and the world of a fresh process. *)
Definition always_half : nat -> Q := fun _ => 1 # 2.
Definition empty_world : World := mkWorld ∅ 0.

(** ** Composite runs of the generator *)

(** [n] successive calls [generateMockEmissionReading(vid, fuelType)],
    with the readings in call order. *)
Fixpoint generate_n (rnd : nat -> Q) (n : nat) (vid : Z) (fuelType : string)
    (w : World) : list EmissionBaseline * World :=
  match n with
  | O => ([], w)
  | S k =>
      let '(r, w1) := generateMockEmissionReading rnd vid fuelType w in
      let '(rs, w2) := generate_n rnd k vid fuelType w1 in
      (r :: rs, w2)
  end.

(** The baselines a stored profile can carry: a row of the table, or
    the field-less value read through an inherited key. *)
Definition listed_baseline (b : EmissionBaseline) : Prop :=
  b = petrol \/ b = diesel \/ b = hybrid \/ b = electric \/ b = cng \/
  b = no_gas_fields.

(** The value [y] respects the clamp of a gas whose baseline is [b]. *)
Definition within_clamp (b y : Q) : Prop :=
  (0 < b -> b * (2 # 10) <= y <= b * 2) /\ (b == 0 -> 0 <= y <= 10).

(** Every gas of reading [r] with a numeric baseline in [base] is a
    number inside the clamp of that baseline. *)
Definition reading_within (base r : EmissionBaseline) : Prop :=
  forall (g : Gas) (b : Q),
    field g base = Num b ->
    exists y : Q, field g r = Num y /\ within_clamp b y.

(** A well-formed profile whose baseline is [base]. *)
Definition fresh_from (base : EmissionBaseline) (p : VehicleProfile) : Prop :=
  well_formed p /\ baseline p = base.

(** Two worlds at the same position of the random sequence that hold
    the same profile (or none) for [vid]. *)
Definition agree (vid : Z) (w1 w2 : World) : Prop :=
  draws w1 = draws w2 /\
  vehicleProfiles w1 !! vid = vehicleProfiles w2 !! vid.

(** The value [y] of a gas whose baseline is [b] is not negative, not
    above the upper clamp ([2 b], or 10 for a zero baseline), and below
    the lower clamp [0.2 b] by less than the step 0.05 of the rounding
    to one decimal. *)
Definition near_clamp (b y : Q) : Prop :=
  0 <= y /\
  b * (2 # 10) - (1 # 20) < y /\
  (0 < b -> y <= b * 2) /\
  (b == 0 -> y <= 10).

(** Every gas of reading [r] with a numeric baseline in [base] is a
    number near the clamp of that baseline. *)
Definition reading_near (base r : EmissionBaseline) : Prop :=
  forall (g : Gas) (b : Q),
    field g base = Num b ->
    exists y : Q, field g r = Num y /\ near_clamp b y.

(** What holds of every stored profile when the draws are in [0, 1). *)
Definition sound_profile (p : VehicleProfile) : Prop :=
  listed_baseline (baseline p) /\
  (exists v : Q, volatility p = Num v /\ 1 # 10 <= v <= 3 # 10) /\
  (exists t : Trend, trend p = Some t) /\
  exists l : EmissionBaseline,
    lastReading p = Some l /\ reading_near (baseline p) l.

(** A profile whose baseline was read through an inherited key. *)
Definition field_less (p : VehicleProfile) : Prop :=
  baseline p = no_gas_fields.

(** A random source that always draws high, and the store after five
    generation calls for a diesel vehicle under it. *)
Definition always_high : nat -> Q := fun _ => 999 # 1000.

Definition diesel_after_five : World :=
  snd (generate_n always_high 5 1 "diesel" empty_world).

(** ** The [emissions] procedures of the router

    The hosted database is an outside service.  Its answers to the
    vehicle queries are parameters of the procedures, and what a
    procedure asks it to insert is returned as a list of writes, in call
    order; a failing insert is not modelled. *)

(** The columns of a vehicle row the procedures read. *)
Record Vehicle : Type := mkVehicle {
  v_id : Z;
  v_fuelType : string;
  v_deviceId : string;
}.

(** The row [createEmissionReading] inserts; [None] is [null]. *)
Record ReadingRow : Type := mkRow {
  vehicle_id : Z;
  row_co2 : option number;
  row_co : option number;
  row_nox : option number;
  pm_level : option number;
}.

(** [createAlert] inserts its argument with [is_active: true]. *)
Inductive Write : Type :=
| InsertReading (r : ReadingRow)
| InsertAlert (a : Alert).

Inductive Outcome (A : Type) : Type :=
| Returned (a : A)
| Thrown (message : string).

Arguments Returned {A} a.
Arguments Thrown {A} message.

(** [x || null] for [x : number | null | undefined] *)
Definition or_null (x : option number) : option number :=
  match x with
  | Some v => if truthy v then Some v else None
  | None => None
  end.

(** The insert of [createEmissionReading(reading)]. *)
Definition createEmissionReading (vehicleId : Z)
    (r_co2 r_co r_nox r_pmLevel : option number) : Write :=
  InsertReading
    {| vehicle_id := vehicleId;
       row_co2 := or_null r_co2;
       row_co := or_null r_co;
       row_nox := or_null r_nox;
       pm_level := or_null r_pmLevel |}.

(** [emissions.ingest] *)
Definition emissions_ingest (getVehicleByDeviceId : string -> option Vehicle)
    (input : IngestInput) : Outcome unit * list Write :=
  match getVehicleByDeviceId (deviceId input) with
  | None => (Thrown "Vehicle not found", [])
  | Some vehicle =>
      let reading :=
        createEmissionReading (v_id vehicle)
          (or_null (in_co2 input)) (or_null (in_co input))
          (or_null (in_nox input)) (or_null (in_pmLevel input)) in
      (Returned tt,
       reading :: map InsertAlert (ingest_alerts (v_id vehicle) input))
  end.

(** The parsed input of [emissions.generateMock]. *)
Record MockInput : Type := mkMockInput {
  mi_vehicleId : option Z;
  generateForAll : bool;
}.

(** What [emissions.generateMock] returns: the number of results of the
    all-vehicles branch, or the vehicle and the mock data of the
    single-vehicle branch. *)
Inductive MockResult : Type :=
| GeneratedAll (generated : nat)
| GeneratedOne (vehicleId : Z) (mockData : EmissionBaseline).

(** Truthiness of an optional integer: [undefined] and [0] are falsy. *)
Definition truthy_id (v : option Z) : option Z :=
  match v with
  | Some id => if (id =? 0)%Z then None else Some id
  | None => None
  end.

Section Router.

Variable rnd : nat -> Q.
Variable getAllVehicles : list Vehicle.
Variable getVehicleById : Z -> option Vehicle.

(** The body shared by the two branches of [emissions.generateMock]:
    generate, store the reading, check the thresholds. *)
Definition mock_for (vehicle : Vehicle) : M (EmissionBaseline * list Write) :=
  let* mockData :=
    generateMockEmissionReading rnd (v_id vehicle) (v_fuelType vehicle) in
  let reading :=
    createEmissionReading (v_id vehicle)
      (Some (co2 mockData)) (Some (co mockData))
      (Some (nox mockData)) (Some (pmLevel mockData)) in
  ret (mockData,
       reading :: map InsertAlert (generateMock_alerts (v_id vehicle) mockData)).

(** The [for (const vehicle of vehicles)] loop; the first component
    counts the [results.push]. *)
Fixpoint mock_for_all (vehicles : list Vehicle) : M (nat * list Write) :=
  match vehicles with
  | [] => ret (0%nat, [])
  | vehicle :: rest =>
      let* one := mock_for vehicle in
      let* more := mock_for_all rest in
      ret (S (fst more), snd one ++ snd more)
  end.

Definition emissions_generateMock (input : MockInput)
  : M (Outcome MockResult * list Write) :=
  if generateForAll input then
    let* all := mock_for_all getAllVehicles in
    ret (Returned (GeneratedAll (fst all)), snd all)
  else
    match truthy_id (mi_vehicleId input) with
    | Some id =>
        match getVehicleById id with
        | None => ret (Thrown "Vehicle not found", [])
        | Some vehicle =>
            let* one := mock_for vehicle in
            ret (Returned (GeneratedOne (v_id vehicle) (fst one)), snd one)
        end
    | None =>
        ret (Thrown "Either vehicleId or generateForAll must be provided", [])
    end.

(** The parsed input of [emissions.populateHistory] (the defaults 24
    and 5 are filled in by the parser). *)
Record HistoryInput : Type := mkHistoryInput {
  hi_vehicleId : option Z;
  hi_hoursBack : Q;
  hi_intervalMinutes : Q;
}.

(** The loop over [historicalData] of the single-vehicle branch: store
    the reading, draw, maybe raise the CO2 alert, push the result. *)
Fixpoint store_history (vid : Z) (historicalData : list EmissionBaseline)
  : M (nat * list Write) :=
  match historicalData with
  | [] => ret (0%nat, [])
  | data :: rest =>
      let reading :=
        createEmissionReading vid (Some (co2 data)) (Some (co data))
          (Some (nox data)) (Some (pmLevel data)) in
      let* r := Math_random rnd in
      let alerts := map InsertAlert (populateHistory_alerts vid r data) in
      let* more := store_history vid rest in
      ret (S (fst more), reading :: alerts ++ snd more)
  end.

(** The inner loop of the all-vehicles branch: store the readings. *)
Definition store_readings (vid : Z) (historicalData : list EmissionBaseline)
  : list Write :=
  map (fun data =>
         createEmissionReading vid (Some (co2 data)) (Some (co data))
           (Some (nox data)) (Some (pmLevel data)))
      historicalData.

(** The loop over the vehicles of the all-vehicles branch; the first
    component is [totalResults].  [None]: a backfill did not return
    within [fuel] iterations. *)
Fixpoint history_for_all (fuel : nat) (input : HistoryInput)
    (vehicles : list Vehicle) (w : World)
  : option ((list (Z * nat) * list Write) * World) :=
  match vehicles with
  | [] => Some (([], []), w)
  | vehicle :: rest =>
      match generateHistoricalData rnd fuel (v_id vehicle) (v_fuelType vehicle)
              (hi_hoursBack input) (Some (hi_intervalMinutes input)) w with
      | None => None
      | Some (historicalData, w1) =>
          match history_for_all fuel input rest w1 with
          | None => None
          | Some ((totals, writes), w2) =>
              Some (((v_id vehicle, length historicalData) :: totals,
                     store_readings (v_id vehicle) historicalData ++ writes),
                    w2)
          end
      end
  end.

(** What [emissions.populateHistory] returns. *)
Inductive HistoryResult : Type :=
| BackfilledOne (vehicleId : Z) (generated : nat)
| BackfilledAll (generated : list (Z * nat)).

Definition emissions_populateHistory (fuel : nat) (input : HistoryInput)
    (w : World) : option ((Outcome HistoryResult * list Write) * World) :=
  match truthy_id (hi_vehicleId input) with
  | Some id =>
      match getVehicleById id with
      | None => Some ((Thrown "Vehicle not found", []), w)
      | Some vehicle =>
          match generateHistoricalData rnd fuel (v_id vehicle)
                  (v_fuelType vehicle) (hi_hoursBack input)
                  (Some (hi_intervalMinutes input)) w with
          | None => None
          | Some (historicalData, w1) =>
              let '(stored, w2) :=
                store_history (v_id vehicle) historicalData w1 in
              Some ((Returned (BackfilledOne (v_id vehicle) (fst stored)),
                     snd stored), w2)
          end
      end
  | None =>
      match history_for_all fuel input getAllVehicles w with
      | None => None
      | Some ((totals, writes), w1) =>
          Some ((Returned (BackfilledAll totals), writes), w1)
      end
  end.

End Router.

(** Reading the writes back. *)
Definition row_field (g : Gas) (r : ReadingRow) : option number :=
  match g with
  | CO2 => row_co2 r
  | CO => row_co r
  | NOx => row_nox r
  | PM => pm_level r
  end.

Definition inserted_readings (ws : list Write) : list ReadingRow :=
  flat_map (fun x => match x with InsertReading r => [r] | InsertAlert _ => [] end) ws.

Definition inserted_alerts (ws : list Write) : list Alert :=
  flat_map (fun x => match x with InsertAlert a => [a] | InsertReading _ => [] end) ws.

(** The row stored for a generated reading. *)
Definition row_of (vid : Z) (data : EmissionBaseline) : ReadingRow :=
  {| vehicle_id := vid;
     row_co2 := or_null (Some (co2 data));
     row_co := or_null (Some (co data));
     row_nox := or_null (Some (nox data));
     pm_level := or_null (Some (pmLevel data)) |}.

(** What a CO2 alert of the backfill looks like. *)
Definition co2_alert_for (vid : Z) (a : Alert) : Prop :=
  exists x : Q,
    1000 < x /\ a = mkAlert vid "CO2" (Num x) (Num 1000).

(** A vehicle table with two rows, and the answer of the store to a
    query by identifier ([.single()]: exactly one matching row). *)
Definition two_vehicles : list Vehicle :=
  [mkVehicle 1 "diesel" "dev-1"; mkVehicle 2 "Electric" "dev-2"].

Definition vehicle_of_id (id : Z) : option Vehicle :=
  match filter (fun v => (v_id v =? id)%Z) two_vehicles with
  | [v] => Some v
  | _ => None
  end.

(** ** Client address of a request

    [getClientIp] of the login routes.  A header value reaches the code
    as a string of Latin-1 code units, one per byte; among those the
    characters [trim] removes are 9 to 13, 32 and 160. *)

Definition is_space (c : ascii) : bool :=
  let n := nat_of_ascii c in
  ((9 <=? n)%nat && (n <=? 13)%nat) || (n =? 32)%nat || (n =? 160)%nat.

Definition is_empty (s : string) : bool :=
  match s with
  | EmptyString => true
  | String _ _ => false
  end.

Fixpoint trim_start (s : string) : string :=
  match s with
  | EmptyString => EmptyString
  | String c s' => if is_space c then trim_start s' else s
  end.

Fixpoint trim_end (s : string) : string :=
  match s with
  | EmptyString => EmptyString
  | String c s' =>
      let t := trim_end s' in
      if is_space c && is_empty t then EmptyString else String c t
  end.

(** [s.trim()] *)
Definition trim (s : string) : string := trim_end (trim_start s).

(** [s.split(",")[0]]: what precedes the first comma. *)
Fixpoint before_comma (s : string) : string :=
  match s with
  | EmptyString => EmptyString
  | String c s' =>
      if Ascii.eqb c ","%char then EmptyString else String c (before_comma s')
  end.

(** The value of [req.headers["x-forwarded-for"]]. *)
Inductive HeaderValue : Type :=
| NoHeader
| OneValue (s : string)
| ManyValues (l : list string).

(** [x || null] for a string: the empty string is falsy. *)
Definition string_or_null (x : option string) : option string :=
  match x with
  | Some s => if is_empty s then None else Some s
  | None => None
  end.

Definition getClientIp (forwarded : HeaderValue) (remoteAddress : option string)
  : option string :=
  match forwarded with
  | OneValue s => Some (trim (before_comma s))
  | NoHeader | ManyValues _ => string_or_null remoteAddress
  end.

(** The last character of a string. *)
Fixpoint last_char (s : string) : option ascii :=
  match s with
  | EmptyString => None
  | String c EmptyString => Some c
  | String _ s' => last_char s'
  end.

Definition first_char (s : string) : option ascii :=
  match s with
  | EmptyString => None
  | String c _ => Some c
  end.

(** [s] contains the character [c]. *)
Fixpoint has_char (c : ascii) (s : string) : bool :=
  match s with
  | EmptyString => false
  | String d s' => Ascii.eqb d c || has_char c s'
  end.

(** Neither the first nor the last character of [s] is a space. *)
Definition trimmed (s : string) : Prop :=
  (forall c, first_char s = Some c -> is_space c = false) /\
  (forall c, last_char s = Some c -> is_space c = false).

(** ** The messages of [ai.chat] *)

Inductive Role : Type := role_system | role_user | role_assistant.

Record ChatMessage : Type := mkMessage {
  role : Role;
  content : string;
}.

Definition is_system (r : Role) : bool :=
  match r with
  | role_system => true
  | role_user | role_assistant => false
  end.

Definition system_prompt : ChatMessage :=
  mkMessage role_system
    "You are a helpful assistant for a vehicle emission monitoring system. You help users understand emission data, compliance status, and provide insights about vehicle emissions and environmental impact.".

(** The list [ai.chat] passes to [invokeLLM]: the input messages
    copied, with the system prompt put in front when none of them has
    the role [system]. *)
Definition chat_messages (messages : list ChatMessage) : list ChatMessage :=
  let llmMessages :=
    map (fun msg => {| role := role msg; content := content msg |}) messages in
  let hasSystemMessage :=
    existsb (fun msg => is_system (role msg)) llmMessages in
  if negb hasSystemMessage then system_prompt :: llmMessages else llmMessages.

(** ** The generator in binary64

    The same source functions with a JavaScript [number] as an IEEE 754
    binary64 value (Rocq's primitive floats: round to nearest, ties to
    even, with [NaN], the infinities and the two zeros).  As above,
    [undefined] in a numeric slot is identified with [NaN].  The
    integer-valued results of [Math.floor] are kept as a [Bound], and the
    loop counter of the backfill as an integer. *)

Module B64.

Local Open Scope float_scope.

(** [Math.max] and [Math.min]: [NaN] if either argument is [NaN];
    [+0] is larger than [-0]. *)
Definition Math_max (a b : float) : float :=
  if is_nan a || is_nan b then nan
  else if a <? b then b
  else if b <? a then a
  else if get_sign a then b else a.

Definition Math_min (a b : float) : float :=
  if is_nan a || is_nan b then nan
  else if a <? b then a
  else if b <? a then b
  else if get_sign a then a else b.

(** The signed integer mantissa of a finite non-zero value
    [(-1)^s * m * 2^e]. *)
Definition signed (s : bool) (m : positive) : Z :=
  if s then Z.neg m else Z.pos m.

(** An integer below [2^63] in magnitude as a binary64 value (exact
    below [2^53]). *)
Definition of_integer (z : Z) : float :=
  if (z <? 0)%Z then - of_uint63 (Uint63.of_Z (- z))
  else of_uint63 (Uint63.of_Z z).

(** [Math.round]: zeros, infinities, [NaN] and integers are returned as
    they are; otherwise the nearest integer, halves towards plus
    infinity, which is [-0] for a value in [-0.5, 0). *)
Definition Math_round (x : float) : float :=
  match Prim2SF x with
  | S754_finite s m e =>
      if (0 <=? e)%Z then x
      else
        let k := (- e)%Z in
        let z := ((2 * signed s m + 2 ^ k) / 2 ^ (k + 1))%Z in
        if (z =? 0)%Z then (if s then neg_zero else zero) else of_integer z
  | S754_zero _ | S754_infinity _ | S754_nan => x
  end.

(** [Math.floor], as a loop bound or an index. *)
Definition Math_floor (x : float) : Bound :=
  match Prim2SF x with
  | S754_zero _ => Finite 0
  | S754_infinity false => PlusInfinity
  | S754_infinity true => MinusInfinity
  | S754_nan => NaNBound
  | S754_finite s m e =>
      if (0 <=? e)%Z then Finite (signed s m * 2 ^ e)
      else Finite (signed s m / 2 ^ (- e))
  end.

Record EmissionBaseline : Type := mkBaseline {
  co2 : float;
  co : float;
  nox : float;
  pmLevel : float;
}.

Record VehicleProfile : Type := mkProfile {
  vehicleId : Z;
  baseline : EmissionBaseline;
  lastReading : option EmissionBaseline;
  trend : option Trend;
  volatility : float;
}.

Definition petrol : EmissionBaseline := mkBaseline 450 8 35 25.
Definition diesel : EmissionBaseline := mkBaseline 550 12 45 40.
Definition hybrid : EmissionBaseline := mkBaseline 300 5 20 15.
Definition electric : EmissionBaseline := mkBaseline 0 0 0 5.
Definition cng : EmissionBaseline := mkBaseline 400 6 25 20.

Definition EMISSION_BASELINES : gmap string EmissionBaseline :=
  <["petrol"%string := petrol]>
  (<["diesel"%string := diesel]>
  (<["hybrid"%string := hybrid]>
  (<["electric"%string := electric]>
  (<["cng"%string := cng]> ∅)))).

(** [EMISSION_BASELINES[key] || EMISSION_BASELINES.petrol]: an own row,
    the field-less inherited member, or petrol. *)
Definition baseline_or_petrol (key : string) : EmissionBaseline :=
  match EMISSION_BASELINES !! key with
  | Some b => b
  | None =>
      if bool_decide (key ∈ Object_prototype_keys)
      then mkBaseline nan nan nan nan
      else petrol
  end.

Definition field (g : Gas) (r : EmissionBaseline) : float :=
  match g with
  | CO2 => co2 r
  | CO => co r
  | NOx => nox r
  | PM => pmLevel r
  end.

Record World : Type := mkWorld {
  vehicleProfiles : gmap Z VehicleProfile;
  draws : nat;
}.

Definition M (A : Type) : Type := World -> A * World.

Definition ret {A : Type} (a : A) : M A := fun w => (a, w).

Definition bind {A B : Type} (m : M A) (k : A -> M B) : M B :=
  fun w => let '(a, w') := m w in k a w'.

Declare Scope b64_scope.
Notation "'let*' x := m 'in' k" := (bind m (fun x => k))
  (at level 10, x name, m at level 100, k at level 200) : b64_scope.
Notation "m ;; k" := (bind m (fun _ => k))
  (at level 100, k at level 200, right associativity) : b64_scope.
Local Open Scope b64_scope.

Definition set_profile (vid : Z) (p : VehicleProfile) : M unit :=
  fun w => (tt, mkWorld (<[vid := p]> (vehicleProfiles w)) (draws w)).

Section Generator.

(** The values returned by successive [Math.random()]. *)
Variable rnd : nat -> float.

Definition Math_random : M float :=
  fun w => (rnd (draws w), mkWorld (vehicleProfiles w) (S (draws w))).

(** [trends[Math.floor(r * trends.length)]] *)
Definition pick_trend (r : float) : option Trend :=
  match Math_floor (r * 4) with
  | Finite i => trends_at i
  | PlusInfinity | MinusInfinity | NaNBound => None
  end.

Definition fresh_profile (vid : Z) (fuelType : string) (r1 r2 : float)
  : VehicleProfile :=
  let base := baseline_or_petrol (toLowerCase fuelType) in
  {| vehicleId := vid;
     baseline := base;
     lastReading := Some base;
     trend := pick_trend r1;
     volatility := 0.1 + r2 * 0.2 |}.

Definition getVehicleProfile (vid : Z) (fuelType : string) : M VehicleProfile :=
  fun w =>
    match vehicleProfiles w !! vid with
    | Some p => (p, w)
    | None =>
        (let* r1 := Math_random in
         let* r2 := Math_random in
         let p := fresh_profile vid fuelType r1 r2 in
         set_profile vid p ;;
         ret p) w
    end.

Definition trendMultiplier (t : option Trend) (r : float) : float :=
  match t with
  | Some increasing => 1 + r * 0.05
  | Some decreasing => 1 - r * 0.05
  | Some volatile => 0.85 + r * 0.3
  | Some stable | None => 0.95 + r * 0.1
  end.

(** The closure [generateValue], with the variables it captures. *)
Definition generateValue (volatility trendMultiplier : float)
    (baseValue : float) (lastValue : option float)
    (minVariation maxVariation : float) : M float :=
  let reference := nullish lastValue baseValue in
  let* u := Math_random in
  let variation := minVariation + u * (maxVariation - minVariation) in
  let variationAmount := reference * volatility * variation in
  let newValue := reference + variationAmount in
  let newValue := newValue * trendMultiplier in
  let newValue :=
    if baseValue =? 0
    then Math_max 0 (Math_min newValue 10)
    else Math_max (baseValue * 0.2) (Math_min newValue (baseValue * 2)) in
  ret (Math_round (newValue * 10) / 10).

Definition set_lastReading (p : VehicleProfile) (r : EmissionBaseline)
  : VehicleProfile :=
  {| vehicleId := vehicleId p;
     baseline := baseline p;
     lastReading := Some r;
     trend := trend p;
     volatility := volatility p |}.

Definition generateMockEmissionReading (vid : Z) (fuelType : string)
  : M EmissionBaseline :=
  let* profile := getVehicleProfile vid fuelType in
  let base := baseline profile in
  let last := lastReading profile in
  let* rt := Math_random in
  let tm := trendMultiplier (trend profile) rt in
  let gen := generateValue (volatility profile) tm in
  let* rc := Math_random in
  let correlationFactor := 0.7 + rc * 0.3 in
  let* v_co2 := gen (co2 base) (option_map co2 last)
                  (-0.2 * correlationFactor) (0.2 * correlationFactor) in
  let* v_co := gen (co base) (option_map co last)
                  (-0.25 * correlationFactor) (0.25 * correlationFactor) in
  let* v_nox := gen (nox base) (option_map nox last)
                  (-0.2 * correlationFactor) (0.2 * correlationFactor) in
  let* v_pm := gen (pmLevel base) (option_map pmLevel last)
                  (-0.3 * correlationFactor) (0.3 * correlationFactor) in
  let reading := mkBaseline v_co2 v_co v_nox v_pm in
  set_profile vid (set_lastReading profile reading) ;;
  ret reading.

Definition resetVehicleProfile (vid : Z) : M unit :=
  fun w => (tt, mkWorld (delete vid (vehicleProfiles w)) (draws w)).

(** [Math.floor((hoursBack * 60) / intervalMinutes)] *)
Definition points_of (hoursBack intervalMinutes : float) : Bound :=
  Math_floor ((hoursBack * 60) / intervalMinutes).

Fixpoint history_loop (fuel : nat) (vid : Z) (fuelType : string)
    (points : Bound) (i : Z) (data : list EmissionBaseline) (w : World)
  : option (list EmissionBaseline * World) :=
  match fuel with
  | O => None
  | S fuel' =>
      if le_bound i points then
        let '(reading, w') := generateMockEmissionReading vid fuelType w in
        history_loop fuel' vid fuelType points (i + 1)%Z
                     (data ++ [reading]) w'
      else Some (data, w)
  end.

Definition generateHistoricalData (fuel : nat) (vid : Z) (fuelType : string)
    (hoursBack : float) (intervalMinutes : option float) (w : World)
  : option (list EmissionBaseline * World) :=
  let intervalMinutes := nullish intervalMinutes 5 in
  let points := points_of hoursBack intervalMinutes in
  let '(_, w1) := resetVehicleProfile vid w in
  let '(_, w2) := getVehicleProfile vid fuelType w1 in
  history_loop fuel vid fuelType points 0%Z [] w2.

(** [n] successive calls [generateMockEmissionReading(vid, fuelType)]. *)
Fixpoint generate_n (n : nat) (vid : Z) (fuelType : string) (w : World)
  : list EmissionBaseline * World :=
  match n with
  | O => ([], w)
  | S k =>
      let '(r, w1) := generateMockEmissionReading vid fuelType w in
      let '(rs, w2) := generate_n k vid fuelType w1 in
      (r :: rs, w2)
  end.

End Generator.

(** *** The value of one gas as the specification words it

    Written from the steps of the specification, not from
    [generateValue]: the reference, the variation within the bounds of
    the gas scaled by the correlation factor, the sum times the trend
    multiplier, the clamp, the rounding to one decimal. *)

Definition variation_bound (g : Gas) : float :=
  match g with
  | CO2 => 0.2
  | CO => 0.25
  | NOx => 0.2
  | PM => 0.3
  end.

(** The last reading of the gas when there is one, else its baseline. *)
Definition spec_reference (p : VehicleProfile) (g : Gas) : float :=
  match lastReading p with
  | Some l => field g l
  | None => field g (baseline p)
  end.

(** The draw [u] of [0, 1) placed between the bounds of the gas scaled
    by the correlation factor [cf]. *)
Definition spec_variation (g : Gas) (cf u : float) : float :=
  let lo := - variation_bound g * cf in
  let hi := variation_bound g * cf in
  lo + u * (hi - lo).

(** [v] brought into [lo, hi]. *)
Definition clamp_to (lo hi v : float) : float := Math_max lo (Math_min v hi).

(** To [0, 10] for a baseline that is exactly 0, to
    [baseline*0.2, baseline*2] otherwise. *)
Definition spec_clamp (base v : float) : float :=
  if base =? 0 then clamp_to 0 10 v else clamp_to (base * 0.2) (base * 2) v.

(** To one decimal place. *)
Definition spec_round1 (v : float) : float := Math_round (v * 10) / 10.

Definition spec_value (p : VehicleProfile) (g : Gas) (tm cf u : float)
  : float :=
  let reference := spec_reference p g in
  let sum := reference + reference * volatility p * spec_variation g cf u in
  spec_round1 (spec_clamp (field g (baseline p)) (sum * tm)).

(** [0.7 + Math.random() * 0.3] *)
Definition correlation_of (rc : float) : float := 0.7 + rc * 0.3.

(** A random source that always draws 0.5, and the world of a fresh
    process. *)
Definition always_half : nat -> float := fun _ => 0.5.
Definition empty_world : World := mkWorld ∅ 0.

End B64.

(** * Properties *)

(** *** Arithmetic of the clamp and of the rounding *)

Section Numeric.

Lemma Qmax_Qmin_bounds (lo hi x : Q) :
  lo <= hi -> lo <= Qmax lo (Qmin x hi) <= hi.
Proof.
  intros H. split.
  - apply Q.le_max_l.
  - apply Q.max_lub; [exact H|apply Q.le_min_r].
Qed.

Lemma round_tenth_bounds (zl zh : Z) (x : Q) :
  inject_Z zl <= x * 10 -> x * 10 <= inject_Z zh ->
  inject_Z zl / 10 <= inject_Z (Qfloor (x * 10 + (1 # 2))) / 10 <= inject_Z zh / 10.
Proof.
  intros Hl Hh.
  assert (zl <= Qfloor (x * 10 + (1 # 2)))%Z as H1.
  { rewrite <- (Qfloor_Z zl). apply Qfloor_resp_le.
    apply Qle_trans with (x * 10); [exact Hl|].
    rewrite <- (Qplus_0_r (x * 10)) at 1. apply Qplus_le_r. discriminate. }
  assert (Qfloor (x * 10 + (1 # 2)) <= zh)%Z as H2.
  { assert (Qfloor (x * 10 + (1 # 2)) < zh + 1)%Z; [|lia].
    rewrite Zlt_Qlt. eapply Qle_lt_trans; [apply Qfloor_le|].
    rewrite inject_Z_plus. change (inject_Z 1) with 1.
    apply Qle_lt_trans with (inject_Z zh + (1 # 2)).
    - apply Qplus_le_l. exact Hh.
    - apply Qplus_lt_r. reflexivity. }
  rewrite Zle_Qle in H1, H2.
  split; apply Qmult_le_compat_r; try assumption; discriminate.
Qed.

Lemma clamp_positive (b x : Q) :
  0 < b ->
  exists y, clamp (Num b) (Num x) = Num y /\ b * (2 # 10) <= y <= b * 2.
Proof.
  intros Hb. unfold clamp, strict_eq.
  destruct (Qeq_bool b 0) eqn:E.
  - apply Qeq_bool_iff in E. lra.
  - eexists. split; [reflexivity|]. apply Qmax_Qmin_bounds. lra.
Qed.

Lemma clamp_zero (b x : Q) :
  b == 0 ->
  exists y, clamp (Num b) (Num x) = Num y /\ 0 <= y <= 10.
Proof.
  intros Hb. unfold clamp, strict_eq.
  apply Qeq_bool_iff in Hb. rewrite Hb.
  eexists. split; [reflexivity|]. apply Qmax_Qmin_bounds. lra.
Qed.

Lemma round1_Num (x : Q) :
  round1 (Num x) = Num (inject_Z (Qfloor (x * 10 + (1 # 2))) / 10).
Proof. reflexivity. Qed.

End Numeric.

(** *** Profiles *)

Lemma EMISSION_BASELINES_values (key : string) (b : EmissionBaseline) :
  EMISSION_BASELINES !! key = Some b ->
  b = petrol \/ b = diesel \/ b = hybrid \/ b = electric \/ b = cng.
Proof.
  unfold EMISSION_BASELINES. intros H.
  repeat (apply lookup_insert_Some in H as [[_ <-]|[_ H]]; [tauto|]).
  now rewrite lookup_empty in H.
Qed.

Lemma baseline_or_petrol_values (key : string) :
  let b := baseline_or_petrol key in
  b = petrol \/ b = diesel \/ b = hybrid \/ b = electric \/ b = cng \/
  b = no_gas_fields.
Proof.
  unfold baseline_or_petrol, EMISSION_BASELINES_get. cbv zeta.
  destruct (EMISSION_BASELINES !! key) as [b|] eqn:E.
  - apply EMISSION_BASELINES_values in E. tauto.
  - destruct (bool_decide _); tauto.
Qed.

Lemma baseline_or_petrol_fields (key : string) (g : Gas) :
  integral (field g (baseline_or_petrol key)) \/
  field g (baseline_or_petrol key) = NaN.
Proof.
  destruct (baseline_or_petrol_values key) as [-> | [-> | [-> | [-> | [-> | ->]]]]];
    destruct g; cbn;
    solve [left; eexists; reflexivity | right; reflexivity].
Qed.

Lemma trendMultiplier_numeric (t : option Trend) (q : Q) :
  numeric (trendMultiplier t (Num q)).
Proof. destruct t as [[]|]; eexists; reflexivity. Qed.

Lemma well_formed_fresh (vid : Z) (f : string) (q1 q2 : Q) :
  well_formed (fresh_profile vid f (Num q1) (Num q2)).
Proof.
  split; [eexists; reflexivity|].
  eexists. split; [reflexivity|]. intros g. cbn.
  destruct (baseline_or_petrol_fields (toLowerCase f) g) as [[z Hz]|Hn];
    [left|right; exact Hn].
  split; [now exists z|]. rewrite Hz. now eexists.
Qed.

(** The value generated for a gas with an integer baseline, a numeric
    reference and numeric draws is a number inside the clamp. *)
Lemma spec_value_bounds (p : VehicleProfile) (g : Gas) (l : EmissionBaseline)
    (z : Z) (qt qc u : Q) :
  numeric (volatility p) ->
  lastReading p = Some l ->
  numeric (field g l) ->
  field g (baseline p) = Num (inject_Z z) ->
  exists y : Q,
    spec_value p g (trendMultiplier (trend p) (Num qt))
      (correlation_of (Num qc)) (Num u) = Num y /\
    ((0 < z)%Z -> inject_Z z * (2 # 10) <= y <= inject_Z z * 2) /\
    (z = 0%Z -> 0 <= y <= 10).
Proof.
  intros [v Hv] Hl [ref Href] Hb.
  destruct (trendMultiplier_numeric (trend p) qt) as [tm Htm].
  unfold spec_value, spec_reference. rewrite Hl, Href, Hb, Hv, Htm.
  cbn [spec_variation correlation_of JS.add JS.mul JS.sub lift2].
  set (x := ((ref + ref * v * _) * tm)%Q).
  unfold clamp, strict_eq.
  destruct (Qeq_bool (inject_Z z) 0) eqn:E.
  - apply Qeq_bool_iff in E.
    assert (z = 0%Z) as -> by (apply (inject_Z_injective z 0); exact E).
    cbn [Math_max Math_min lift2]. rewrite round1_Num.
    eexists. split; [reflexivity|]. split; [lia|]. intros _.
    pose proof (Qmax_Qmin_bounds 0 10 x) as Hy.
    destruct (round_tenth_bounds 0 100 (Qmax 0 (Qmin x 10))) as [H1 H2].
    + change (inject_Z 0) with 0. lra.
    + change (inject_Z 100) with 100. lra.
    + change (inject_Z 0) with 0 in H1. change (inject_Z 100) with 100 in H2.
      set (r := inject_Z (Qfloor _)) in *. clearbody r.
      unfold Qdiv in *. cbn [Qinv Qnum Qden] in *. split; lra.
  - cbn [JS.mul Math_max Math_min lift2]. rewrite round1_Num.
    eexists. split; [reflexivity|]. split; [|intros ->; discriminate].
    intros Hz.
    assert (0 < inject_Z z) as Hq by (now rewrite Zlt_Qlt in Hz).
    set (b := inject_Z z) in *.
    pose proof (Qmax_Qmin_bounds (b * (2 # 10)) (b * 2) x) as Hy.
    destruct (round_tenth_bounds (2 * z) (20 * z)
                (Qmax (b * (2 # 10)) (Qmin x (b * 2)))) as [H1 H2].
    + rewrite inject_Z_mult. fold b. change (inject_Z 2) with 2. lra.
    + rewrite inject_Z_mult. fold b. change (inject_Z 20) with 20. lra.
    + rewrite inject_Z_mult in H1, H2. fold b in H1, H2.
      change (inject_Z 2) with 2 in H1. change (inject_Z 20) with 20 in H2.
      set (r := inject_Z (Qfloor _)) in *. clearbody r.
      unfold Qdiv in *. cbn [Qinv Qnum Qden] in *. split; lra.
Qed.

Lemma well_formed_closed : generation_closed well_formed.
Proof.
  intros p qt qc q1 q2 q3 q4 (Hv & l & Hl & Hg).
  split; [exact Hv|]. eexists. split; [reflexivity|].
  intros g. cbn [baseline set_lastReading].
  destruct (Hg g) as [[[z Hz] Hn]|Hnan]; [left|right; exact Hnan].
  split; [now exists z|].
  destruct g; cbn [field next_reading co2 co nox pmLevel].
  - destruct (spec_value_bounds p CO2 l z qt qc q1 Hv Hl Hn Hz) as (y & -> & _).
    now eexists.
  - destruct (spec_value_bounds p CO l z qt qc q2 Hv Hl Hn Hz) as (y & -> & _).
    now eexists.
  - destruct (spec_value_bounds p NOx l z qt qc q3 Hv Hl Hn Hz) as (y & -> & _).
    now eexists.
  - destruct (spec_value_bounds p PM l z qt qc q4 Hv Hl Hn Hz) as (y & -> & _).
    now eexists.
Qed.

(** *** The generator, call by call *)

Section GeneratorFacts.

Variable rnd : nat -> Q.

Local Abbreviation draw k := (Num (rnd k)).

Lemma getVehicleProfile_found (vid : Z) (f : string) (w : World) (p : VehicleProfile) :
  vehicleProfiles w !! vid = Some p ->
  getVehicleProfile rnd vid f w = (p, w).
Proof. intros H. unfold getVehicleProfile. now rewrite H. Qed.

Lemma getVehicleProfile_fresh (vid : Z) (f : string) (w : World) :
  vehicleProfiles w !! vid = None ->
  let p := fresh_profile vid f (draw (draws w)) (draw (S (draws w))) in
  getVehicleProfile rnd vid f w =
    (p, mkWorld (<[vid := p]> (vehicleProfiles w)) (S (S (draws w)))).
Proof. intros H. unfold getVehicleProfile. now rewrite H. Qed.

Lemma getVehicleProfile_stored (vid : Z) (f : string) (w : World) :
  vehicleProfiles (snd (getVehicleProfile rnd vid f w)) !! vid
  = Some (fst (getVehicleProfile rnd vid f w)).
Proof.
  destruct (vehicleProfiles w !! vid) as [p|] eqn:E.
  - now rewrite (getVehicleProfile_found _ _ _ _ E).
  - rewrite (getVehicleProfile_fresh _ f _ E). simpl. apply lookup_insert_eq.
Qed.

Lemma getVehicleProfile_idem (vid : Z) (f g : string) (w : World) :
  getVehicleProfile rnd vid g (snd (getVehicleProfile rnd vid f w))
  = getVehicleProfile rnd vid f w.
Proof.
  pose proof (getVehicleProfile_stored vid f w) as H.
  rewrite (getVehicleProfile_found _ g _ _ H).
  now destruct (getVehicleProfile rnd vid f w).
Qed.

Lemma generateValue_eq (p : VehicleProfile) (g : Gas) (tm cf : number) (w : World) :
  generateValue rnd (volatility p) tm (field g (baseline p))
    (option_map (field g) (lastReading p))
    (Num (- variation_bound g) * cf)%js (Num (variation_bound g) * cf)%js w
  = (spec_value p g tm cf (draw (draws w)),
     mkWorld (vehicleProfiles w) (S (draws w))).
Proof.
  unfold generateValue, bind, ret, Math_random, spec_value, spec_variation,
    spec_reference.
  now destruct (lastReading p).
Qed.

Lemma generateMockEmissionReading_eq (vid : Z) (f : string) (w : World) :
  let p := fst (getVehicleProfile rnd vid f w) in
  let w1 := snd (getVehicleProfile rnd vid f w) in
  let n := draws w1 in
  let r := next_reading p (draw n) (draw (n + 1)) (draw (n + 2))
             (draw (n + 3)) (draw (n + 4)) (draw (n + 5)) in
  generateMockEmissionReading rnd vid f w =
    (r, mkWorld (<[vid := set_lastReading p r]> (vehicleProfiles w1)) (n + 6)).
Proof.
  cbv zeta. unfold generateMockEmissionReading at 1. unfold bind at 1.
  destruct (getVehicleProfile rnd vid f w) as [p w1]. cbn [fst snd].
  unfold bind at 1. unfold Math_random at 1.
  unfold bind at 1. unfold Math_random at 1. cbn [vehicleProfiles draws].
  unfold bind at 1.
  rewrite (generateValue_eq p CO2). cbn [vehicleProfiles draws].
  unfold bind at 1.
  rewrite (generateValue_eq p CO). cbn [vehicleProfiles draws].
  unfold bind at 1.
  rewrite (generateValue_eq p NOx). cbn [vehicleProfiles draws].
  unfold bind at 1.
  rewrite (generateValue_eq p PM). cbn [vehicleProfiles draws].
  unfold bind, set_profile, ret, next_reading, correlation_of.
  cbn [vehicleProfiles draws].
  replace (draws w1 + 1)%nat with (S (draws w1)) by lia.
  replace (draws w1 + 2)%nat with (S (S (draws w1))) by lia.
  replace (draws w1 + 3)%nat with (S (S (S (draws w1)))) by lia.
  replace (draws w1 + 4)%nat with (S (S (S (S (draws w1))))) by lia.
  replace (draws w1 + 5)%nat with (S (S (S (S (S (draws w1)))))) by lia.
  replace (draws w1 + 6)%nat with (S (S (S (S (S (S (draws w1))))))) by lia.
  reflexivity.
Qed.


(** *** How each call changes the store *)

Lemma getVehicleProfile_cases (vid : Z) (f : string) (w : World) :
  (exists p, vehicleProfiles w !! vid = Some p /\
             getVehicleProfile rnd vid f w = (p, w)) \/
  (vehicleProfiles w !! vid = None /\
   exists n m,
     getVehicleProfile rnd vid f w =
       (fresh_profile vid f (draw n) (draw m),
        mkWorld (<[vid := fresh_profile vid f (draw n) (draw m)]>
                   (vehicleProfiles w)) (S (S (draws w))))).
Proof.
  destruct (vehicleProfiles w !! vid) as [p|] eqn:E.
  - left. exists p. split; [reflexivity|]. now apply getVehicleProfile_found.
  - right. split; [reflexivity|]. eexists _, _.
    now apply getVehicleProfile_fresh.
Qed.

Lemma getVehicleProfile_frame (vid v : Z) (f : string) (w : World)
    (p : VehicleProfile) :
  vehicleProfiles w !! vid = Some p ->
  vehicleProfiles (snd (getVehicleProfile rnd v f w)) !! vid = Some p.
Proof.
  intros Hp.
  destruct (getVehicleProfile_cases v f w) as [(p' & _ & ->)|(Hn & n & m & ->)];
    [exact Hp|].
  cbn. rewrite lookup_insert_ne; [exact Hp|]. congruence.
Qed.


Lemma generateMockEmissionReading_store (vid : Z) (f : string) (w : World) :
  exists qt qc q1 q2 q3 q4,
    let p := fst (getVehicleProfile rnd vid f w) in
    let r := next_reading p (Num qt) (Num qc) (Num q1) (Num q2) (Num q3) (Num q4) in
    fst (generateMockEmissionReading rnd vid f w) = r /\
    vehicleProfiles (snd (generateMockEmissionReading rnd vid f w)) =
      <[vid := set_lastReading p r]>
        (vehicleProfiles (snd (getVehicleProfile rnd vid f w))).
Proof.
  rewrite generateMockEmissionReading_eq.
  eexists _, _, _, _, _, _. cbn. split; reflexivity.
Qed.

Section Everywhere.

Variable P : VehicleProfile -> Prop.
Hypothesis P_fresh : forall vid f n m, P (fresh_profile vid f (draw n) (draw m)).
Hypothesis P_closed : generation_closed P.

Lemma getVehicleProfile_all (vid : Z) (f : string) (w : World) :
  profiles_all P w ->
  P (fst (getVehicleProfile rnd vid f w)) /\
  profiles_all P (snd (getVehicleProfile rnd vid f w)).
Proof.
  intros Hw.
  destruct (getVehicleProfile_cases vid f w) as [(p & Hp & ->)|(Hn & n & m & ->)].
  - split; [exact (Hw _ _ Hp)|exact Hw].
  - split; [apply P_fresh|]. intros v p. cbn.
    destruct (decide (vid = v)) as [->|Hne].
    + rewrite lookup_insert_eq. intros [= <-]. apply P_fresh.
    + rewrite lookup_insert_ne by exact Hne. apply Hw.
Qed.

Lemma generateMockEmissionReading_all (vid : Z) (f : string) (w : World) :
  profiles_all P w ->
  profiles_all P (snd (generateMockEmissionReading rnd vid f w)).
Proof.
  intros Hw.
  destruct (getVehicleProfile_all vid f w Hw) as [Hp Hw1].
  destruct (generateMockEmissionReading_store vid f w)
    as (qt & qc & q1 & q2 & q3 & q4 & _ & Hs).
  intros v p. rewrite Hs.
  destruct (decide (vid = v)) as [->|Hne].
  - rewrite lookup_insert_eq. intros [= <-]. now apply P_closed.
  - rewrite lookup_insert_ne by exact Hne. apply Hw1.
Qed.

Lemma resetVehicleProfile_all (vid : Z) (w : World) :
  profiles_all P w ->
  profiles_all P (snd (resetVehicleProfile vid w)).
Proof.
  intros Hw v p. cbn. intros Hl.
  apply lookup_delete_Some in Hl as [_ Hl]. exact (Hw _ _ Hl).
Qed.

Lemma history_loop_all (fuel : nat) (vid : Z) (f : string) (points : Bound) :
  forall (i : Z) (data : list EmissionBaseline) (w : World) res,
    profiles_all P w ->
    history_loop rnd fuel vid f points i data w = Some res ->
    profiles_all P (snd res).
Proof.
  induction fuel as [|fuel IH]; intros i data w res Hw; cbn; [discriminate|].
  destruct (le_bound i points).
  - destruct (generateMockEmissionReading rnd vid f w) as [r w'] eqn:E.
    apply IH. change w' with (snd (r, w')). rewrite <- E.
    now apply generateMockEmissionReading_all.
  - intros [= <-]. exact Hw.
Qed.

Lemma generateHistoricalData_all (fuel : nat) (vid : Z) (f : string) (h : Q)
    (i : option Q) (w : World) res :
  profiles_all P w ->
  generateHistoricalData rnd fuel vid f h i w = Some res ->
  profiles_all P (snd res).
Proof.
  intros Hw. unfold generateHistoricalData.
  pose proof (resetVehicleProfile_all vid w Hw) as H1.
  destruct (resetVehicleProfile vid w) as [u w1].
  pose proof (getVehicleProfile_all vid f w1 H1) as [_ H2].
  destruct (getVehicleProfile rnd vid f w1) as [p w2].
  now apply history_loop_all.
Qed.

Lemma step_all (o : Op) (w w' : World) :
  profiles_all P w -> step rnd o w = Some w' -> profiles_all P w'.
Proof.
  intros Hw. destruct o as [v f|v f|v|fuel v f h i]; cbn [step].
  - intros [= <-]. now apply getVehicleProfile_all.
  - intros [= <-]. now apply generateMockEmissionReading_all.
  - intros [= <-]. now apply (resetVehicleProfile_all v w).
  - destruct (generateHistoricalData rnd fuel v f h i w) as [res|] eqn:E;
      [|discriminate].
    cbn. intros [= <-]. eapply generateHistoricalData_all; eassumption.
Qed.

Lemma run_all (ops : list Op) :
  forall w w', profiles_all P w -> run rnd ops w = Some w' -> profiles_all P w'.
Proof.
  induction ops as [|o ops IH]; intros w w' Hw; cbn.
  - intros [= <-]. exact Hw.
  - destruct (step rnd o w) as [w1|] eqn:E; [|discriminate].
    apply IH. eapply step_all; eassumption.
Qed.

Lemma reachable_all (w : World) : reachable rnd w -> profiles_all P w.
Proof.
  intros (n & ops & Hrun). eapply run_all; [|exact Hrun].
  intros v p. cbn. now rewrite lookup_empty.
Qed.

End Everywhere.

Section AtOneVehicle.

Variable vid : Z.
Variable P : VehicleProfile -> Prop.
Hypothesis P_closed : generation_closed P.

Lemma getVehicleProfile_at (v : Z) (f : string) (w : World) :
  profile_at vid P w -> profile_at vid P (snd (getVehicleProfile rnd v f w)).
Proof.
  intros (p & Hp & HP). exists p. split; [|exact HP].
  now apply getVehicleProfile_frame.
Qed.

Lemma generateMockEmissionReading_at (v : Z) (f : string) (w : World) :
  profile_at vid P w ->
  profile_at vid P (snd (generateMockEmissionReading rnd v f w)).
Proof.
  intros (p & Hp & HP).
  destruct (generateMockEmissionReading_store v f w)
    as (qt & qc & q1 & q2 & q3 & q4 & _ & Hs).
  unfold profile_at. rewrite Hs.
  destruct (decide (v = vid)) as [->|Hne].
  - rewrite lookup_insert_eq. eexists. split; [reflexivity|].
    rewrite (getVehicleProfile_found vid f w p Hp). cbn [fst].
    now apply P_closed.
  - rewrite lookup_insert_ne by exact Hne. exists p. split; [|exact HP].
    now apply getVehicleProfile_frame.
Qed.

Lemma resetVehicleProfile_at (v : Z) (w : World) :
  v <> vid ->
  profile_at vid P w -> profile_at vid P (snd (resetVehicleProfile v w)).
Proof.
  intros Hne (p & Hp & HP). exists p. split; [|exact HP].
  cbn. now rewrite lookup_delete_ne.
Qed.

Lemma history_loop_at (fuel : nat) (v : Z) (f : string) (points : Bound) :
  forall (i : Z) (data : list EmissionBaseline) (w : World) res,
    profile_at vid P w ->
    history_loop rnd fuel v f points i data w = Some res ->
    profile_at vid P (snd res).
Proof.
  induction fuel as [|fuel IH]; intros i data w res Hw; cbn; [discriminate|].
  destruct (le_bound i points).
  - pose proof (generateMockEmissionReading_at v f w Hw) as H.
    destruct (generateMockEmissionReading rnd v f w) as [r w'].
    now apply IH.
  - intros [= <-]. exact Hw.
Qed.

Lemma generateHistoricalData_at (fuel : nat) (v : Z) (f : string) (h : Q)
    (i : option Q) (w : World) res :
  v <> vid ->
  profile_at vid P w ->
  generateHistoricalData rnd fuel v f h i w = Some res ->
  profile_at vid P (snd res).
Proof.
  intros Hne Hw. unfold generateHistoricalData.
  pose proof (resetVehicleProfile_at v w Hne Hw) as H1.
  destruct (resetVehicleProfile v w) as [u w1].
  pose proof (getVehicleProfile_at v f w1 H1) as H2.
  destruct (getVehicleProfile rnd v f w1) as [p w2].
  now apply history_loop_at.
Qed.

Lemma step_at (o : Op) (w w' : World) :
  resets vid o = false ->
  profile_at vid P w -> step rnd o w = Some w' -> profile_at vid P w'.
Proof.
  intros Hk Hw. destruct o as [v f|v f|v|fuel v f h i]; cbn [step].
  - intros [= <-]. now apply getVehicleProfile_at.
  - intros [= <-]. now apply generateMockEmissionReading_at.
  - cbn in Hk. apply bool_decide_eq_false in Hk.
    intros [= <-]. now apply (resetVehicleProfile_at v w).
  - cbn in Hk. apply bool_decide_eq_false in Hk.
    destruct (generateHistoricalData rnd fuel v f h i w) as [res|] eqn:E;
      [|discriminate].
    cbn. intros [= <-]. eapply generateHistoricalData_at; eassumption.
Qed.

Lemma run_at (ops : list Op) :
  forall w w',
    keeps vid ops = true ->
    profile_at vid P w -> run rnd ops w = Some w' -> profile_at vid P w'.
Proof.
  induction ops as [|o ops IH]; intros w w' Hk Hw; cbn.
  - intros [= <-]. exact Hw.
  - cbn in Hk. apply andb_true_iff in Hk as [Ho Hk].
    apply negb_true_iff in Ho.
    destruct (step rnd o w) as [w1|] eqn:E; [|discriminate].
    apply IH; [exact Hk|]. eapply step_at; eassumption.
Qed.

End AtOneVehicle.

End GeneratorFacts.

(** ** The reading generator *)

Lemma empty_world_reachable (rnd : nat -> Q) : reachable rnd empty_world.
Proof. exists 0%nat, []. reflexivity. Qed.

Lemma pick_trend_in_range (q : Q) :
  0 <= q < 1 -> exists t : Trend, pick_trend (Num q) = Some t.
Proof.
  intros [H0 H1]. unfold pick_trend, trend_index, trends_at.
  assert (0 <= Qfloor (q * 4) < 4)%Z as [Hl Hu].
  { split.
    - rewrite <- (Qfloor_Z 0). apply Qfloor_resp_le. change (inject_Z 0) with 0. lra.
    - rewrite Zlt_Qlt. eapply Qle_lt_trans; [apply Qfloor_le|].
      change (inject_Z 4) with 4. lra. }
  destruct (Z.leb_spec 0 (Qfloor (q * 4))) as [_|]; [|lia].
  destruct (Z.to_nat (Qfloor (q * 4))) as [|[|[|[|k]]]] eqn:E;
    [eexists; reflexivity ..|lia].
Qed.





Lemma always_half_unit : unit_draws always_half.
Proof. intros n. split; [discriminate|reflexivity]. Defined.


(** ** The profile store *)

(** Claim C9.  [resetVehicleProfile] removes the profile of the
    identifier when there is one, changes nothing (and fails in no way:
    the model is a total function) when there is none, and leaves the
    profile of every other identifier as it was. *)
Theorem reset_removes_one (vid : Z) (w : World) :
  let w' := snd (resetVehicleProfile vid w) in
  vehicleProfiles w' !! vid = None /\
  (forall v : Z, v <> vid -> vehicleProfiles w' !! v = vehicleProfiles w !! v) /\
  (vehicleProfiles w !! vid = None -> w' = w) /\
  draws w' = draws w.
Proof.
  cbn. repeat split.
  - apply lookup_delete_eq.
  - intros v Hv. now apply lookup_delete_ne.
  - intros H. destruct w as [m n]. cbn in *. f_equal. now apply delete_id.
Qed.

Lemma reset_removes_one_witness :
  vehicleProfiles (snd (resetVehicleProfile 1 empty_world)) !! 2%Z
    = vehicleProfiles empty_world !! 2%Z /\
  snd (resetVehicleProfile 1 empty_world) = empty_world.
Proof.
  destruct (reset_removes_one 1 empty_world) as (_ & Hother & Hnone & _).
  split.
  - apply Hother. discriminate.
  - apply Hnone. reflexivity.
Defined.

Lemma same_choices_closed (p0 : VehicleProfile) :
  generation_closed (same_choices p0).
Proof. intros p qt qc q1 q2 q3 q4 H. exact H. Qed.

(** Claim C5.  Once [getVehicleProfile] has returned a profile for an
    identifier, every later [getVehicleProfile] for it, after any calls
    that do not reset that identifier, returns a profile with the same
    trend, volatility and baseline, whatever fuel type is passed, and
    draws nothing: the random choices are those of the first call. *)
Theorem profile_stability (rnd : nat -> Q) (vid : Z) (f1 f2 : string)
    (w w2 : World) (ops : list Op) :
  keeps vid ops = true ->
  run rnd ops (snd (getVehicleProfile rnd vid f1 w)) = Some w2 ->
  let p1 := fst (getVehicleProfile rnd vid f1 w) in
  let p2 := fst (getVehicleProfile rnd vid f2 w2) in
  trend p2 = trend p1 /\ volatility p2 = volatility p1 /\
  baseline p2 = baseline p1 /\
  draws (snd (getVehicleProfile rnd vid f2 w2)) = draws w2.
Proof.
  intros Hk Hrun. cbv zeta.
  assert (profile_at vid (same_choices (fst (getVehicleProfile rnd vid f1 w)))
            (snd (getVehicleProfile rnd vid f1 w))) as H1.
  { eexists. split; [apply getVehicleProfile_stored|]. repeat split. }
  destruct (run_at rnd vid _ (same_choices_closed _) ops _ _ Hk H1 Hrun)
    as (p2 & Hp2 & Ht & Hv & Hb).
  rewrite (getVehicleProfile_found rnd vid f2 w2 p2 Hp2). cbn [fst snd].
  auto.
Qed.

Lemma profile_stability_witness :
  baseline (fst (getVehicleProfile always_half 1 "diesel"
    (snd (generateMockEmissionReading always_half 1 "petrol"
       (snd (getVehicleProfile always_half 1 "petrol" empty_world))))))
  = petrol.
Proof.
  exact (proj1 (proj2 (proj2
    (profile_stability always_half 1 "petrol" "diesel" empty_world _
       [OpGenerate 1 "petrol"] eq_refl eq_refl)))).
Defined.

(** ** Electric vehicles *)

Lemma spec_value_zero (p : VehicleProfile) (g : Gas) (l : EmissionBaseline)
    (qt qc u : Q) :
  numeric (volatility p) ->
  lastReading p = Some l ->
  field g l ≃ Num 0 ->
  field g (baseline p) = Num 0 ->
  spec_value p g (trendMultiplier (trend p) (Num qt))
    (correlation_of (Num qc)) (Num u) ≃ Num 0.
Proof.
  intros [v Hv] Hl Hz Hb.
  destruct (field g l) as [ref|] eqn:Href; [|contradiction].
  cbn in Hz.
  destruct (trendMultiplier_numeric (trend p) qt) as [tm Htm].
  unfold spec_value, spec_reference. rewrite Hl, Href, Hb, Hv, Htm.
  cbn [spec_variation correlation_of JS.add JS.mul JS.sub lift2].
  set (x := ((ref + ref * v * _) * tm)%Q).
  assert (x == 0) as Hx by (unfold x; rewrite Hz; ring).
  unfold clamp, strict_eq. change (Qeq_bool 0 0) with true. cbn iota.
  cbn [Math_max Math_min lift2]. rewrite round1_Num. cbn [eqv].
  assert (Qmax 0 (Qmin x 10) == 0) as Hy.
  { rewrite Hx. reflexivity. }
  rewrite Hy. reflexivity.
Qed.

Lemma emits_nothing_closed : generation_closed emits_nothing.
Proof.
  intros p qt qc q1 q2 q3 q4 (Hb & Hv & l & Hl & H2 & H1 & H3).
  split; [exact Hb|]. split; [exact Hv|].
  eexists. split; [reflexivity|].
  cbn [next_reading co2 co nox].
  split; [|split].
  - apply (spec_value_zero p CO2 l); auto. cbn. now rewrite Hb.
  - apply (spec_value_zero p CO l); auto. cbn. now rewrite Hb.
  - apply (spec_value_zero p NOx l); auto. cbn. now rewrite Hb.
Qed.

Lemma emits_nothing_fresh (vid : Z) (f : string) (r1 : number) (q2 : Q) :
  toLowerCase f = "electric"%string ->
  emits_nothing (fresh_profile vid f r1 (Num q2)).
Proof.
  intros Hf. unfold fresh_profile. rewrite Hf.
  split; [reflexivity|]. split; [eexists; reflexivity|].
  eexists. split; [reflexivity|]. repeat split; reflexivity.
Qed.

(** Claim C10.  For a profile created with fuel type "electric" (in any
    letter case), every reading [generateMockEmissionReading] returns
    for that vehicle, as long as the profile is not reset, has co2, co
    and nox exactly 0. *)
Theorem electric_emits_nothing (rnd : nat -> Q) (vid : Z) (fuel f : string)
    (w w' : World) (ops : list Op) :
  vehicleProfiles w !! vid = None ->
  toLowerCase fuel = "electric"%string ->
  keeps vid ops = true ->
  run rnd ops (snd (getVehicleProfile rnd vid fuel w)) = Some w' ->
  let r := fst (generateMockEmissionReading rnd vid f w') in
  co2 r ≃ Num 0 /\ co r ≃ Num 0 /\ nox r ≃ Num 0.
Proof.
  intros Hnone Hfuel Hk Hrun. cbv zeta.
  assert (profile_at vid emits_nothing (snd (getVehicleProfile rnd vid fuel w)))
    as H1.
  { rewrite (getVehicleProfile_fresh rnd vid fuel w Hnone). cbn [snd].
    eexists. split; [cbn; apply lookup_insert_eq|].
    now apply emits_nothing_fresh. }
  pose proof (run_at rnd vid _ emits_nothing_closed ops _ _ Hk H1 Hrun) as H2.
  apply (generateMockEmissionReading_at rnd vid _ emits_nothing_closed vid f) in H2.
  destruct H2 as (p & Hp & _ & _ & l & Hl & Hz).
  destruct (generateMockEmissionReading_store rnd vid f w')
    as (qt & qc & q1 & q2 & q3 & q4 & Hr & Hs).
  rewrite Hs, lookup_insert_eq in Hp. injection Hp as <-.
  cbn [lastReading set_lastReading] in Hl. injection Hl as <-.
  rewrite Hr. exact Hz.
Qed.

Lemma electric_emits_nothing_witness :
  let r := fst (generateMockEmissionReading always_half 1 "petrol"
             (snd (getVehicleProfile always_half 1 "Electric" empty_world))) in
  co2 r ≃ Num 0 /\ co r ≃ Num 0 /\ nox r ≃ Num 0.
Proof.
  exact (electric_emits_nothing always_half 1 "Electric" "petrol"
           empty_world _ [] eq_refl eq_refl eq_refl eq_refl).
Defined.

(** ** The last reading *)

(** Against claim C4 as stated: right after [getVehicleProfile] has
    created the profile of vehicle 1, and also after a backfill that
    generates no reading at all, no generation call has completed for
    that vehicle and yet [lastReading] is there, a copy of the
    baseline. *)
Lemma lastReading_set_at_creation :
  (exists p : VehicleProfile,
     vehicleProfiles (snd (getVehicleProfile always_half 1 "petrol" empty_world))
       !! 1%Z = Some p /\
     lastReading p = Some petrol) /\
  (exists (w : World) (p : VehicleProfile),
     generateHistoricalData always_half 1 1 "petrol" (-1) None empty_world
       = Some ([], w) /\
     vehicleProfiles w !! 1%Z = Some p /\
     lastReading p = Some petrol).
Proof.
  split.
  - eexists. split; reflexivity.
  - eexists _, _. split; [reflexivity|]. split; reflexivity.
Qed.

(** Claim C4, amended.  [lastReading] is present in every profile of
    every reachable store: a new profile gets a copy of its baseline,
    and each generation call overwrites it with the reading the call
    returns. *)
Theorem lastReading_present (rnd : nat -> Q) (w : World) (vid : Z) (f : string) :
  reachable rnd w ->
  (forall (v : Z) (p : VehicleProfile),
     vehicleProfiles w !! v = Some p ->
     exists l : EmissionBaseline, lastReading p = Some l) /\
  (vehicleProfiles w !! vid = None ->
   lastReading (fst (getVehicleProfile rnd vid f w)) =
     Some (baseline (fst (getVehicleProfile rnd vid f w)))) /\
  (exists p : VehicleProfile,
     vehicleProfiles (snd (generateMockEmissionReading rnd vid f w)) !! vid
       = Some p /\
     lastReading p = Some (fst (generateMockEmissionReading rnd vid f w))).
Proof.
  intros Hr. split; [|split].
  - apply (reachable_all rnd (fun p => exists l, lastReading p = Some l)).
    + intros v g n m. eexists. reflexivity.
    + intros p qt qc q1 q2 q3 q4 _. eexists. reflexivity.
    + exact Hr.
  - intros Hnone. now rewrite (getVehicleProfile_fresh rnd vid f w Hnone).
  - rewrite generateMockEmissionReading_eq. cbn [fst snd vehicleProfiles].
    eexists. split; [apply lookup_insert_eq|reflexivity].
Qed.

Lemma lastReading_present_witness :
  lastReading (fst (getVehicleProfile always_half 1 "cng" empty_world))
    = Some (baseline (fst (getVehicleProfile always_half 1 "cng" empty_world))).
Proof.
  apply (lastReading_present always_half empty_world 1 "cng"
           (empty_world_reachable always_half)).
  reflexivity.
Defined.

(** ** Historical backfill *)

Section History.

Variable rnd : nat -> Q.
Variables (vid : Z) (f : string).

Lemma generateHistoricalData_start (fuel : nat) (h : Q) (i : option Q)
    (w : World) :
  let fresh := fresh_profile vid f (Num (rnd (draws w)))
                 (Num (rnd (S (draws w)))) in
  generateHistoricalData rnd fuel vid f h i w =
    history_loop rnd fuel vid f (points_of h (nullish i 5)) 0 []
      (mkWorld (<[vid := fresh]> (delete vid (vehicleProfiles w)))
               (S (S (draws w)))).
Proof.
  cbv zeta. unfold generateHistoricalData, resetVehicleProfile, delete_profile.
  rewrite getVehicleProfile_fresh by (cbn; apply lookup_delete_eq).
  reflexivity.
Qed.

End History.

(** ** Fuel types *)

(** Outside the names every object inherits, the lookup is that of the
    table, ignoring letter case, with petrol as the fallback. *)
Lemma baseline_or_petrol_own (key : string) :
  key ∉ Object_prototype_keys ->
  baseline_or_petrol key = default petrol (EMISSION_BASELINES !! key).
Proof.
  intros Hk. unfold baseline_or_petrol, EMISSION_BASELINES_get.
  destruct (EMISSION_BASELINES !! key); [reflexivity|].
  now rewrite bool_decide_eq_false_2.
Qed.

Lemma fuel_type_examples :
  baseline_or_petrol (toLowerCase "Diesel") = diesel /\
  baseline_or_petrol (toLowerCase "CNG") = cng /\
  baseline_or_petrol (toLowerCase "kerosene") = petrol /\
  baseline_or_petrol (toLowerCase "") = petrol.
Proof. repeat split; reflexivity. Qed.

(** Claim C8, at the input where the code departs from it.  The fuel
    type "constructor" is in no row of the table, yet
    [EMISSION_BASELINES["constructor"]] is the inherited
    [Object.prototype.constructor], a truthy value, so the [||] does not
    fall back to petrol: the profile gets a baseline without gas fields
    and the reading generated from it is [NaN] in all four gases. *)
Theorem inherited_key_defeats_fallback (rnd : nat -> Q) (n : nat) :
  EMISSION_BASELINES !! toLowerCase "constructor" = None /\
  baseline (fst (getVehicleProfile rnd 1 "constructor" (mkWorld ∅ n)))
    = no_gas_fields /\
  baseline (fst (getVehicleProfile rnd 1 "constructor" (mkWorld ∅ n)))
    <> petrol /\
  fst (generateMockEmissionReading rnd 1 "constructor" (mkWorld ∅ n))
    = mkBaseline NaN NaN NaN NaN.
Proof.
  split; [reflexivity|]. split; [reflexivity|]. split; [discriminate|].
  rewrite generateMockEmissionReading_eq. reflexivity.
Qed.

(** ** Threshold alerts *)

Lemma thresholds_field (g : Gas) : field g thresholds = Num (threshold_of g).
Proof. destruct g; reflexivity. Qed.

Lemma threshold_positive (g : Gas) : 0 < threshold_of g.
Proof. destruct g; reflexivity. Qed.

Lemma gt_Num (x t : Q) :
  gt (Num x) (Num t) = if Qlt_le_dec t x then true else false.
Proof.
  unfold gt. destruct (Qlt_le_dec t x) as [Hlt|Hle].
  - destruct (Qle_bool x t) eqn:E; [|reflexivity].
    apply Qle_bool_iff in E. lra.
  - apply Qle_bool_iff in Hle. now rewrite Hle.
Qed.

Lemma ingest_check_evaluate (vid : Z) (g : Gas) (i : IngestInput) :
  ingest_check vid g i = evaluate_gas vid g (input_field g i).
Proof.
  unfold ingest_check, evaluate_gas.
  destruct (input_field g i) as [[x|]|]; [|reflexivity..].
  rewrite thresholds_field, gt_Num.
  destruct (Qlt_le_dec (threshold_of g) x) as [Hlt|Hle].
  - assert (truthy (Num x) = true) as ->; [|reflexivity].
    unfold truthy. destruct (Qeq_bool x 0) eqn:E; [|reflexivity].
    apply Qeq_bool_iff in E. pose proof (threshold_positive g). lra.
  - now rewrite andb_false_r.
Qed.

Lemma mock_check_evaluate (vid : Z) (g : Gas) (r : EmissionBaseline) :
  mock_check vid g r = evaluate_gas vid g (Some (field g r)).
Proof.
  unfold mock_check, evaluate_gas. rewrite thresholds_field.
  destruct (field g r) as [x|]; [|reflexivity].
  rewrite gt_Num. now destruct (Qlt_le_dec (threshold_of g) x).
Qed.

Lemma evaluate_gas_In (vid : Z) (g : Gas) (v : option number) (a : Alert) :
  In a (evaluate_gas vid g v) <->
  exists x : Q,
    v = Some (Num x) /\ threshold_of g < x /\
    a = mkAlert vid (gasType_of g) (Num x) (Num (threshold_of g)).
Proof.
  unfold evaluate_gas. split.
  - destruct v as [[x|]|]; [|contradiction..].
    destruct (Qlt_le_dec (threshold_of g) x) as [Hlt|Hle]; [|contradiction].
    intros [<-|[]]. now exists x.
  - intros (x & -> & Hlt & ->).
    destruct (Qlt_le_dec (threshold_of g) x) as [_|Hle]; [now left|lra].
Qed.

(** Against claim C3 as stated: a generated reading with co2 = 1050,
    above the threshold, that goes through the [populateHistory]
    backfill when its [Math.random()] is 0.5 raises no alert, while the
    evaluator of the specification asks for a CO2 alert. *)
Lemma backfill_reading_raises_no_alert :
  populateHistory_alerts 1 (Num (1 # 2)) (mkBaseline 1050 20 40 60) = [] /\
  evaluate 1 (fun g => Some (field g (mkBaseline 1050 20 40 60)))
    = [mkAlert 1 "CO2" (Num 1050) (Num 1000)].
Proof. split; reflexivity. Qed.

(** Claim C3, amended.  For every reading ingested through
    [emissions.ingest] and every reading generated through
    [emissions.generateMock], the alerts created are those of the
    evaluator: for each gas, one alert with the gas type, the measured
    value and the fixed threshold (co2 1000, co 50, nox 100, pmLevel
    100) if and only if the value is present and strictly above the
    threshold; an absent value is skipped, and a reading whose present
    values are all at or below the thresholds creates no alert. *)
Theorem alerts_follow_thresholds (vid : Z) :
  (forall i : IngestInput,
     ingest_alerts vid i = evaluate vid (fun g => input_field g i)) /\
  (forall r : EmissionBaseline,
     generateMock_alerts vid r = evaluate vid (fun g => Some (field g r))) /\
  (forall (reading : Gas -> option number) (a : Alert),
     In a (evaluate vid reading) <->
     exists (g : Gas) (x : Q),
       reading g = Some (Num x) /\ threshold_of g < x /\
       a = mkAlert vid (gasType_of g) (Num x) (Num (threshold_of g))) /\
  (forall reading : Gas -> option number,
     (forall (g : Gas) (x : Q), reading g = Some (Num x) -> x <= threshold_of g) ->
     evaluate vid reading = []) /\
  threshold_of CO2 = 1000 /\ threshold_of CO = 50 /\
  threshold_of NOx = 100 /\ threshold_of PM = 100.
Proof.
  split; [|split; [|split; [|split]]].
  - intros i. unfold ingest_alerts, evaluate. cbn [flat_map].
    rewrite !ingest_check_evaluate, app_nil_r. reflexivity.
  - intros r. unfold generateMock_alerts, evaluate. cbn [flat_map].
    rewrite !mock_check_evaluate, app_nil_r. reflexivity.
  - intros reading a. unfold evaluate. rewrite in_flat_map. split.
    + intros (g & _ & Ha). apply evaluate_gas_In in Ha as (x & Hx & Hlt & ->).
      now exists g, x.
    + intros (g & x & Hx & Hlt & ->). exists g. split.
      * destruct g; cbn; tauto.
      * apply evaluate_gas_In. now exists x.
  - intros reading Hall.
    assert (forall g, evaluate_gas vid g (reading g) = []) as H.
    { intros g. unfold evaluate_gas.
      destruct (reading g) as [[x|]|] eqn:E; [|reflexivity..].
      destruct (Qlt_le_dec (threshold_of g) x) as [Hlt|_]; [|reflexivity].
      specialize (Hall g x E). lra. }
    unfold evaluate. cbn [flat_map]. now rewrite !H.
  - repeat split; reflexivity.
Qed.

Lemma alerts_follow_thresholds_witness :
  evaluate 7 (fun g => match g with CO2 => Some (Num 1000) | _ => None end) = [].
Proof.
  apply (alerts_follow_thresholds 7).
  intros g x. destruct g; intros [= <-]. discriminate.
Defined.

(** * Further properties of the generator *)

Section GeneratorMore.

Variable rnd : nat -> Q.

Lemma next_reading_within (p : VehicleProfile) (qt qc q1 q2 q3 q4 : Q) :
  well_formed p ->
  reading_within (baseline p)
    (next_reading p (Num qt) (Num qc) (Num q1) (Num q2) (Num q3) (Num q4)).
Proof.
  intros (Hv & l & Hl & Hg) g b Hb.
  destruct (Hg g) as [[[z Hz] Hn]|Hnan]; [|congruence].
  assert (b = inject_Z z) as -> by congruence.
  assert (forall u, exists y,
            spec_value p g (trendMultiplier (trend p) (Num qt))
              (correlation_of (Num qc)) (Num u) = Num y /\
            within_clamp (inject_Z z) y) as H.
  { intros u.
    destruct (spec_value_bounds p g l z qt qc u Hv Hl Hn Hz)
      as (y & Hy & Hpos & Hzero).
    exists y. split; [exact Hy|]. split.
    - intros H. apply Hpos. now rewrite Zlt_Qlt.
    - intros H. apply Hzero. now apply (inject_Z_injective z 0). }
  destruct g; cbn [field next_reading co2 co nox pmLevel]; apply H.
Qed.

Lemma generateMockEmissionReading_found (vid : Z) (f : string) (w : World)
    (p : VehicleProfile) :
  vehicleProfiles w !! vid = Some p ->
  exists qt qc q1 q2 q3 q4,
    let r := next_reading p (Num qt) (Num qc) (Num q1) (Num q2) (Num q3) (Num q4) in
    generateMockEmissionReading rnd vid f w =
      (r, mkWorld (<[vid := set_lastReading p r]> (vehicleProfiles w))
                  (draws w + 6)).
Proof.
  intros Hp. rewrite generateMockEmissionReading_eq.
  rewrite (getVehicleProfile_found rnd vid f w p Hp). cbn [fst snd].
  eexists _, _, _, _, _, _. reflexivity.
Qed.


(** *** The fuel type after creation, and other vehicles *)

(** X1.  Once a vehicle has a profile, the fuel type passed to
    [generateMockEmissionReading] is ignored: any two fuel types give
    the same reading and the same store, and the baseline stays the one
    chosen at creation. *)
Theorem fuelType_ignored_once_profiled (vid : Z) (f1 f2 : string) (w : World)
    (p : VehicleProfile) :
  vehicleProfiles w !! vid = Some p ->
  generateMockEmissionReading rnd vid f1 w =
    generateMockEmissionReading rnd vid f2 w /\
  exists p' : VehicleProfile,
    vehicleProfiles (snd (generateMockEmissionReading rnd vid f1 w)) !! vid
      = Some p' /\
    baseline p' = baseline p.
Proof.
  intros Hp. split.
  - rewrite !generateMockEmissionReading_eq.
    now rewrite !(getVehicleProfile_found rnd vid _ w p Hp).
  - destruct (generateMockEmissionReading_found vid f1 w p Hp)
      as (qt & qc & q1 & q2 & q3 & q4 & ->).
    cbn [snd vehicleProfiles]. eexists. split; [apply lookup_insert_eq|].
    reflexivity.
Qed.

Lemma getVehicleProfile_other (vid v : Z) (f : string) (w : World) :
  v <> vid ->
  vehicleProfiles (snd (getVehicleProfile rnd vid f w)) !! v
    = vehicleProfiles w !! v.
Proof.
  intros Hne.
  destruct (getVehicleProfile_cases rnd vid f w)
    as [(p & _ & ->)|(_ & n & m & ->)]; [reflexivity|].
  cbn. apply lookup_insert_ne. congruence.
Qed.

Lemma generateMockEmissionReading_other (vid v : Z) (f : string) (w : World) :
  v <> vid ->
  vehicleProfiles (snd (generateMockEmissionReading rnd vid f w)) !! v
    = vehicleProfiles w !! v.
Proof.
  intros Hne.
  destruct (generateMockEmissionReading_store rnd vid f w)
    as (qt & qc & q1 & q2 & q3 & q4 & _ & ->).
  rewrite lookup_insert_ne by congruence.
  now apply getVehicleProfile_other.
Qed.

Lemma history_loop_other (vid v : Z) (f : string) (points : Bound) :
  v <> vid ->
  forall (fuel : nat) (i : Z) (data : list EmissionBaseline) (w : World) res,
    history_loop rnd fuel vid f points i data w = Some res ->
    vehicleProfiles (snd res) !! v = vehicleProfiles w !! v.
Proof.
  intros Hne. induction fuel as [|fuel IH]; intros i data w res;
    cbn [history_loop]; [discriminate|].
  destruct (le_bound i points).
  - pose proof (generateMockEmissionReading_other vid v f w Hne) as H.
    destruct (generateMockEmissionReading rnd vid f w) as [r w1].
    intros Hl. rewrite (IH _ _ _ _ Hl). exact H.
  - intros [= <-]. reflexivity.
Qed.

(** X2.  A generation call or a backfill for one vehicle leaves the
    profile (or the absence of a profile) of every other vehicle as it
    was. *)
Theorem other_vehicles_untouched (vid v : Z) (f : string) (w : World) :
  v <> vid ->
  vehicleProfiles (snd (generateMockEmissionReading rnd vid f w)) !! v
    = vehicleProfiles w !! v /\
  forall (fuel : nat) (h : Q) (i : option Q) res,
    generateHistoricalData rnd fuel vid f h i w = Some res ->
    vehicleProfiles (snd res) !! v = vehicleProfiles w !! v.
Proof.
  intros Hne. split; [now apply generateMockEmissionReading_other|].
  intros fuel h i res. rewrite generateHistoricalData_start. cbv zeta.
  intros Hl. rewrite (history_loop_other vid v f _ Hne _ _ _ _ _ Hl).
  cbn. rewrite lookup_insert_ne by congruence.
  now apply lookup_delete_ne.
Qed.

(** *** The backfill as a sequence of live calls *)

Lemma history_loop_generate_n (vid : Z) (f : string) (points : Bound) :
  forall (fuel : nat) (i : Z) (data : list EmissionBaseline) (w : World) res,
    history_loop rnd fuel vid f points i data w = Some res ->
    exists n : nat,
      res = (data ++ fst (generate_n rnd n vid f w),
             snd (generate_n rnd n vid f w)).
Proof.
  induction fuel as [|fuel IH]; intros i data w res; cbn [history_loop];
    [discriminate|].
  destruct (le_bound i points).
  - destruct (generateMockEmissionReading rnd vid f w) as [r w1] eqn:E.
    intros Hl. destruct (IH _ _ _ _ Hl) as [n ->].
    exists (S n). cbn [generate_n]. rewrite E.
    destruct (generate_n rnd n vid f w1) as [rs w2]. cbn [fst snd].
    now rewrite <- app_assoc.
  - intros [= <-]. exists 0%nat. cbn. now rewrite app_nil_r.
Qed.

Lemma generate_n_length (n : nat) (vid : Z) (f : string) :
  forall w : World, length (fst (generate_n rnd n vid f w)) = n.
Proof.
  induction n as [|n IH]; intros w; cbn [generate_n]; [reflexivity|].
  destruct (generateMockEmissionReading rnd vid f w) as [r w1].
  specialize (IH w1). destruct (generate_n rnd n vid f w1) as [rs w2].
  cbn in *. now rewrite IH.
Qed.

Lemma generate_n_draws (n : nat) (vid : Z) (f : string) :
  forall w : World,
    is_Some (vehicleProfiles w !! vid) ->
    draws (snd (generate_n rnd n vid f w)) = (draws w + 6 * n)%nat /\
    is_Some (vehicleProfiles (snd (generate_n rnd n vid f w)) !! vid).
Proof.
  induction n as [|n IH]; intros w Hw; cbn [generate_n].
  - cbn. split; [lia|exact Hw].
  - destruct Hw as [p Hp].
    destruct (generateMockEmissionReading_found vid f w p Hp)
      as (qt & qc & q1 & q2 & q3 & q4 & ->).
    match goal with
    | |- context [generate_n rnd n vid f ?w1] =>
        destruct (IH w1) as [Hd Hs];
        [cbn; rewrite lookup_insert_eq; eauto|];
        destruct (generate_n rnd n vid f w1) as [rs w2]
    end.
    cbn in *. split; [lia|exact Hs].
Qed.

(** X3.  Whenever [generateHistoricalData] returns, its result is that
    of resetting the vehicle, creating its profile and then making as
    many plain [generateMockEmissionReading] calls as there are readings;
    it consumes two draws for the profile and six per reading. *)
Theorem history_is_reset_then_generate (fuel : nat) (vid : Z) (f : string)
    (h : Q) (i : option Q) (w w' : World) (data : list EmissionBaseline) :
  generateHistoricalData rnd fuel vid f h i w = Some (data, w') ->
  (data, w') =
    generate_n rnd (length data) vid f
      (snd (getVehicleProfile rnd vid f (snd (resetVehicleProfile vid w)))) /\
  draws w' = (draws w + 2 + 6 * length data)%nat.
Proof.
  rewrite generateHistoricalData_start. cbv zeta.
  assert (snd (getVehicleProfile rnd vid f (snd (resetVehicleProfile vid w)))
          = mkWorld (<[vid := fresh_profile vid f (Num (rnd (draws w)))
                                 (Num (rnd (S (draws w))))]>
                       (delete vid (vehicleProfiles w))) (S (S (draws w))))
    as ->.
  { rewrite getVehicleProfile_fresh; [reflexivity|].
    cbn. apply lookup_delete_eq. }
  set (w0 := mkWorld _ _). intros Hl.
  destruct (history_loop_generate_n vid f _ _ _ _ _ _ Hl) as [n Hn].
  cbn [app] in Hn. injection Hn as -> ->.
  rewrite generate_n_length.
  destruct (generate_n_draws n vid f w0) as [Hd _].
  { cbn. rewrite lookup_insert_eq. eauto. }
  split; [now destruct (generate_n rnd n vid f w0)|].
  rewrite Hd. cbn. lia.
Qed.

(** *** What a reading depends on *)

Lemma getVehicleProfile_agree (vid : Z) (f : string) (w1 w2 : World) :
  agree vid w1 w2 ->
  fst (getVehicleProfile rnd vid f w1) = fst (getVehicleProfile rnd vid f w2) /\
  agree vid (snd (getVehicleProfile rnd vid f w1))
            (snd (getVehicleProfile rnd vid f w2)).
Proof.
  intros [Hd Hp].
  destruct (vehicleProfiles w2 !! vid) as [p|] eqn:E.
  - rewrite (getVehicleProfile_found rnd vid f w1 p Hp),
      (getVehicleProfile_found rnd vid f w2 p E).
    cbn [fst snd]. split; [reflexivity|]. split; [exact Hd|congruence].
  - rewrite (getVehicleProfile_fresh rnd vid f w1 Hp),
      (getVehicleProfile_fresh rnd vid f w2 E).
    cbn [fst snd]. rewrite Hd. split; [reflexivity|]. split; [reflexivity|].
    cbn. now rewrite !lookup_insert_eq.
Qed.

Lemma generateMockEmissionReading_agree (vid : Z) (f : string) (w1 w2 : World) :
  agree vid w1 w2 ->
  fst (generateMockEmissionReading rnd vid f w1)
    = fst (generateMockEmissionReading rnd vid f w2) /\
  agree vid (snd (generateMockEmissionReading rnd vid f w1))
            (snd (generateMockEmissionReading rnd vid f w2)).
Proof.
  intros H. destruct (getVehicleProfile_agree vid f w1 w2 H) as (Hp & Hd & _).
  rewrite !generateMockEmissionReading_eq. cbn [fst snd].
  rewrite Hp, Hd. split; [reflexivity|]. split; [reflexivity|].
  cbn. now rewrite !lookup_insert_eq.
Qed.

Lemma history_loop_agree (vid : Z) (f : string) (points : Bound) :
  forall (fuel : nat) (i : Z) (data : list EmissionBaseline) (w1 w2 : World),
    agree vid w1 w2 ->
    option_map fst (history_loop rnd fuel vid f points i data w1)
      = option_map fst (history_loop rnd fuel vid f points i data w2).
Proof.
  induction fuel as [|fuel IH]; intros i data w1 w2 H; cbn [history_loop];
    [reflexivity|].
  destruct (le_bound i points); [|reflexivity].
  destruct (generateMockEmissionReading_agree vid f w1 w2 H) as [Hr Ha].
  destruct (generateMockEmissionReading rnd vid f w1) as [r1 w1'].
  destruct (generateMockEmissionReading rnd vid f w2) as [r2 w2'].
  cbn [fst snd] in *. subst r2. now apply IH.
Qed.

(** X5.  A reading depends only on the position in the random sequence
    and on the profile of the vehicle itself; and since a backfill
    starts by resetting the vehicle, its readings depend only on the
    position in the random sequence and on its own arguments, not on
    the store. *)
Theorem readings_depend_on_own_profile (vid : Z) (f : string) (w1 w2 : World) :
  (agree vid w1 w2 ->
   fst (generateMockEmissionReading rnd vid f w1)
     = fst (generateMockEmissionReading rnd vid f w2)) /\
  (draws w1 = draws w2 ->
   forall (fuel : nat) (h : Q) (i : option Q),
     option_map fst (generateHistoricalData rnd fuel vid f h i w1)
       = option_map fst (generateHistoricalData rnd fuel vid f h i w2)).
Proof.
  split.
  - intros H. now apply generateMockEmissionReading_agree.
  - intros Hd fuel h i. rewrite !generateHistoricalData_start. cbv zeta.
    apply history_loop_agree. split; [cbn; now rewrite Hd|].
    cbn. rewrite !lookup_insert_eq. now rewrite Hd.
Qed.

(** *** Shape of the values *)

Lemma round1_shape (a : number) (y : Q) :
  round1 a = Num y -> exists z : Z, y = inject_Z z / 10.
Proof.
  destruct a as [x|]; [|discriminate]. rewrite round1_Num.
  intros [= <-]. eexists. reflexivity.
Qed.

Lemma spec_value_NaN (p : VehicleProfile) (g : Gas) (tm cf u : number) :
  field g (baseline p) = NaN -> spec_value p g tm cf u = NaN.
Proof.
  intros Hb. unfold spec_value. rewrite Hb. unfold clamp. cbn [strict_eq].
  cbn [JS.mul lift2 Math_max]. reflexivity.
Qed.

Lemma next_reading_field (p : VehicleProfile) (g : Gas)
    (rt rc u1 u2 u3 u4 : number) :
  exists u : number,
    field g (next_reading p rt rc u1 u2 u3 u4) =
      spec_value p g (trendMultiplier (trend p) rt) (correlation_of rc) u.
Proof. destruct g; eexists; reflexivity. Qed.

Lemma listed_baseline_fields (b : EmissionBaseline) (g : Gas) :
  listed_baseline b ->
  (exists z : Z, (0 <= z)%Z /\ field g b = Num (inject_Z z)) \/
  field g b = NaN.
Proof.
  intros [-> | [-> | [-> | [-> | [-> | ->]]]]]; destruct g; cbn;
    solve [left; eexists; split; [|reflexivity]; lia | right; reflexivity].
Qed.

(** *** Readings of a backfill stay near the clamp *)

Lemma within_near_clamp (z : Z) (y : Q) :
  (0 <= z)%Z -> within_clamp (inject_Z z) y -> near_clamp (inject_Z z) y.
Proof.
  intros Hz [Hpos Hzero].
  rewrite Zle_Qle in Hz. change (inject_Z 0) with 0 in Hz.
  destruct (Qlt_le_dec 0 (inject_Z z)) as [Hlt|Hle].
  - specialize (Hpos Hlt). split; [lra|split; [lra|split; intros; lra]].
  - assert (inject_Z z == 0) as E by lra.
    specialize (Hzero E). split; [lra|split; [lra|split; intros; lra]].
Qed.

Lemma next_reading_near (p : VehicleProfile) (qt qc q1 q2 q3 q4 : Q) :
  well_formed p -> listed_baseline (baseline p) ->
  reading_near (baseline p)
    (next_reading p (Num qt) (Num qc) (Num q1) (Num q2) (Num q3) (Num q4)).
Proof.
  intros Hw Hl g b Hb.
  destruct (next_reading_within p qt qc q1 q2 q3 q4 Hw g b Hb) as (y & Hy & Hc).
  exists y. split; [exact Hy|].
  destruct (listed_baseline_fields _ g Hl) as [(z & Hz0 & Hz)|Hn];
    [|congruence].
  assert (b = inject_Z z) as -> by congruence.
  now apply within_near_clamp.
Qed.

Lemma fresh_from_closed (base : EmissionBaseline) :
  generation_closed (fresh_from base).
Proof.
  intros p qt qc q1 q2 q3 q4 [Hw Hb]. split; [|exact Hb].
  now apply well_formed_closed.
Qed.

Lemma generateMockEmissionReading_near (vid : Z) (f : string) (w : World)
    (base : EmissionBaseline) :
  listed_baseline base ->
  profile_at vid (fresh_from base) w ->
  reading_near base (fst (generateMockEmissionReading rnd vid f w)).
Proof.
  intros Hl (p & Hp & Hw & <-).
  destruct (generateMockEmissionReading_found vid f w p Hp)
    as (qt & qc & q1 & q2 & q3 & q4 & ->).
  cbn [fst]. now apply next_reading_near.
Qed.

Lemma history_loop_near (vid : Z) (f : string) (points : Bound)
    (base : EmissionBaseline) :
  listed_baseline base ->
  forall (fuel : nat) (i : Z) (data : list EmissionBaseline) (w : World) res,
    profile_at vid (fresh_from base) w ->
    Forall (reading_near base) data ->
    history_loop rnd fuel vid f points i data w = Some res ->
    Forall (reading_near base) (fst res).
Proof.
  intros Hl.
  induction fuel as [|fuel IH]; intros i data w res Hw Hdata;
    cbn [history_loop]; [discriminate|].
  destruct (le_bound i points).
  - pose proof (generateMockEmissionReading_near vid f w base Hl Hw) as Hr.
    pose proof (generateMockEmissionReading_at rnd vid _
                  (fresh_from_closed base) vid f w Hw) as Hw1.
    destruct (generateMockEmissionReading rnd vid f w) as [r w1].
    apply IH; [exact Hw1|].
    apply Forall_app. split; [exact Hdata|]. now constructor.
  - intros [= <-]. exact Hdata.
Qed.

(** X4.  Every reading of a backfill stays near the clamp of the
    baseline of the fuel type passed to that backfill, whatever profile
    the vehicle had before: for each gas with baseline [b] the value is
    a number that is not negative, at most [2 b] when [b > 0] and at
    most 10 when [b = 0], and below [0.2 b] by less than 0.05, the step
    of the rounding to one decimal.  The rounding is made after the
    clamp, and in binary64 it does carry a value below
    [baseline * 0.2]; the bounds stated here are those it respects. *)
Theorem history_near_clamp (fuel : nat) (vid : Z) (f : string) (h : Q)
    (i : option Q) (w w' : World) (data : list EmissionBaseline) :
  generateHistoricalData rnd fuel vid f h i w = Some (data, w') ->
  Forall (reading_near (baseline_or_petrol (toLowerCase f))) data.
Proof.
  rewrite generateHistoricalData_start. cbv zeta. intros Hl.
  change data with (fst (data, w')).
  eapply history_loop_near; [| | |exact Hl]; [| |constructor].
  - apply baseline_or_petrol_values.
  - eexists. split; [cbn; apply lookup_insert_eq|].
    split; [apply well_formed_fresh|reflexivity].
Qed.

(** *** Stored profiles *)

Lemma sound_profile_well_formed (p : VehicleProfile) :
  sound_profile p -> well_formed p.
Proof.
  intros (Hb & (v & Hv & _) & _ & l & Hl & Hw).
  split; [now exists v|]. exists l. split; [exact Hl|]. intros g.
  destruct (listed_baseline_fields _ g Hb) as [(z & _ & Hz)|Hn];
    [left|right; exact Hn].
  split; [now exists z|].
  destruct (Hw g _ Hz) as (y & Hy & _). now exists y.
Qed.

Lemma sound_profile_fresh (vid : Z) (f : string) (q1 q2 : Q) :
  0 <= q1 < 1 -> 0 <= q2 < 1 ->
  sound_profile (fresh_profile vid f (Num q1) (Num q2)).
Proof.
  intros H1 H2. split; [|split; [|split]].
  - apply baseline_or_petrol_values.
  - eexists. split; [reflexivity|]. split; lra.
  - now apply pick_trend_in_range.
  - eexists. split; [reflexivity|]. cbn [baseline fresh_profile].
    intros g b Hb. exists b. split; [exact Hb|].
    destruct (listed_baseline_fields _ g (baseline_or_petrol_values (toLowerCase f)))
      as [(z & Hz & Hf)|Hn]; [|congruence].
    assert (b = inject_Z z) as -> by congruence.
    rewrite Zle_Qle in Hz. change (inject_Z 0) with 0 in Hz.
    split; [lra|split; [lra|split; intros; lra]].
Qed.

Lemma sound_profile_closed : generation_closed sound_profile.
Proof.
  intros p qt qc q1 q2 q3 q4 H.
  pose proof (sound_profile_well_formed p H) as Hwf.
  destruct H as (Hb & Hv & Ht & _).
  split; [exact Hb|]. split; [exact Hv|]. split; [exact Ht|].
  eexists. split; [reflexivity|].
  exact (next_reading_near p qt qc q1 q2 q3 q4 Hwf Hb).
Qed.

(** X6.  With draws in [0, 1), every profile of every reachable store
    has a baseline that is a row of the table (or the field-less one
    read through an inherited key), a volatility between 0.1 and 0.3,
    one of the four trends, and a last reading whose every value is not
    negative, at most the upper clamp of its baseline ([2 b], or 10 for
    a zero baseline) and below the lower clamp [0.2 b] by less than the
    rounding step 0.05. *)
Theorem stored_profiles_bounded (w : World) (v : Z) (p : VehicleProfile) :
  unit_draws rnd ->
  reachable rnd w ->
  vehicleProfiles w !! v = Some p ->
  listed_baseline (baseline p) /\
  (exists q : Q, volatility p = Num q /\ 1 # 10 <= q <= 3 # 10) /\
  (exists t : Trend, trend p = Some t) /\
  exists l : EmissionBaseline,
    lastReading p = Some l /\ reading_near (baseline p) l.
Proof.
  intros Hd Hr Hp.
  apply (reachable_all rnd sound_profile) with (w := w) (v := v);
    [| |exact Hr|exact Hp].
  - intros v' f n m. apply sound_profile_fresh; apply Hd.
  - apply sound_profile_closed.
Qed.

Lemma reachable_listed (w : World) (vid : Z) (f : string) :
  reachable rnd w ->
  let p := fst (getVehicleProfile rnd vid f w) in
  well_formed p /\ listed_baseline (baseline p).
Proof.
  intros Hr.
  apply (getVehicleProfile_all rnd
           (fun p => well_formed p /\ listed_baseline (baseline p))).
  - intros v g n m. split; [apply well_formed_fresh|].
    apply baseline_or_petrol_values.
  - apply (reachable_all rnd
             (fun p => well_formed p /\ listed_baseline (baseline p)));
      [| |exact Hr].
    + intros v g n m. split; [apply well_formed_fresh|].
      apply baseline_or_petrol_values.
    + intros p qt qc q1 q2 q3 q4 [Hw Hl]. split; [|exact Hl].
      now apply well_formed_closed.
Qed.

Lemma generateMockEmissionReading_next (vid : Z) (f : string) (w : World) :
  exists qt qc q1 q2 q3 q4,
    fst (generateMockEmissionReading rnd vid f w) =
      next_reading (fst (getVehicleProfile rnd vid f w))
        (Num qt) (Num qc) (Num q1) (Num q2) (Num q3) (Num q4).
Proof.
  destruct (generateMockEmissionReading_store rnd vid f w)
    as (qt & qc & q1 & q2 & q3 & q4 & H & _).
  now exists qt, qc, q1, q2, q3, q4.
Qed.

(** A numeric value of a generated reading comes with the non-negative
    integer baseline of its gas and lies inside the clamp. *)
Lemma next_reading_numeric (p : VehicleProfile) (g : Gas)
    (qt qc q1 q2 q3 q4 x : Q) :
  well_formed p -> listed_baseline (baseline p) ->
  field g (next_reading p (Num qt) (Num qc) (Num q1) (Num q2) (Num q3) (Num q4))
    = Num x ->
  exists z : Z,
    (0 <= z)%Z /\ field g (baseline p) = Num (inject_Z z) /\
    within_clamp (inject_Z z) x.
Proof.
  intros Hw Hl Hx.
  destruct (listed_baseline_fields _ g Hl) as [(z & Hz0 & Hz)|Hn].
  - exists z. split; [exact Hz0|]. split; [exact Hz|].
    destruct (next_reading_within p qt qc q1 q2 q3 q4 Hw g _ Hz) as (y & Hy & Hc).
    rewrite Hx in Hy. now injection Hy as ->.
  - destruct (next_reading_field p g (Num qt) (Num qc) (Num q1) (Num q2)
                (Num q3) (Num q4)) as [u Hu].
    rewrite Hu, (spec_value_NaN p g _ _ _ Hn) in Hx. discriminate.
Qed.

(** X7.  Every numeric value of a reading generated in a reachable
    store is a non-negative multiple of 0.1. *)
Theorem readings_one_decimal (w : World) (vid : Z) (f : string) (g : Gas)
    (y : Q) :
  reachable rnd w ->
  field g (fst (generateMockEmissionReading rnd vid f w)) = Num y ->
  0 <= y /\ exists z : Z, (0 <= z)%Z /\ y = inject_Z z / 10.
Proof.
  intros Hr Hy.
  destruct (reachable_listed w vid f Hr) as [Hw Hl].
  destruct (generateMockEmissionReading_next vid f w)
    as (qt & qc & q1 & q2 & q3 & q4 & E).
  rewrite E in Hy.
  destruct (next_reading_numeric _ g qt qc q1 q2 q3 q4 y Hw Hl Hy)
    as (z & Hz0 & _ & Hpos & Hzero).
  assert (0 <= y) as H0.
  { destruct (Z.eq_dec z 0%Z) as [->|Hne].
    - apply Hzero. reflexivity.
    - assert (0 < inject_Z z) as Hq.
      { change 0 with (inject_Z 0). rewrite <- Zlt_Qlt. lia. }
      specialize (Hpos Hq). lra. }
  split; [exact H0|].
  destruct (next_reading_field (fst (getVehicleProfile rnd vid f w)) g
              (Num qt) (Num qc) (Num q1) (Num q2) (Num q3) (Num q4)) as [u Hu].
  rewrite Hu in Hy. unfold spec_value in Hy.
  apply round1_shape in Hy as [z' ->]. exists z'. split; [|reflexivity].
  assert (0 <= inject_Z z') as H.
  { unfold Qdiv in H0. cbn [Qinv Qnum Qden] in H0. lra. }
  change 0 with (inject_Z 0) in H. now rewrite <- Zle_Qle in H.
Qed.

Lemma generateMock_alerts_In (vid : Z) (r : EmissionBaseline) (a : Alert) :
  In a (generateMock_alerts vid r) ->
  exists (g : Gas) (x : Q),
    field g r = Num x /\ threshold_of g < x /\
    a = mkAlert vid (gasType_of g) (Num x) (Num (threshold_of g)).
Proof.
  unfold generateMock_alerts. rewrite !mock_check_evaluate. intros Ha.
  apply in_app_or in Ha as [Ha|Ha]; [exists CO2|].
  2: apply in_app_or in Ha as [Ha|Ha]; [exists CO|].
  3: apply in_app_or in Ha as [Ha|Ha]; [exists NOx|exists PM].
  all: apply evaluate_gas_In in Ha as (x & Hx & Hlt & ->);
    injection Hx as Hx; exists x; auto.
Qed.

(** X8.  In a reachable store, the only alert [emissions.generateMock]
    can create for a generated reading is a CO2 alert for a vehicle
    whose profile has the diesel baseline: the clamp keeps every other
    gas and every other fuel type at or below its threshold. *)
Theorem mock_alerts_only_diesel_co2 (w : World) (vid : Z) (f : string)
    (a : Alert) :
  reachable rnd w ->
  In a (generateMock_alerts vid (fst (generateMockEmissionReading rnd vid f w))) ->
  gasType a = "CO2"%string /\
  baseline (fst (getVehicleProfile rnd vid f w)) = diesel.
Proof.
  intros Hr Ha.
  destruct (reachable_listed w vid f Hr) as [Hw Hl].
  destruct (generateMockEmissionReading_next vid f w)
    as (qt & qc & q1 & q2 & q3 & q4 & E).
  rewrite E in Ha. clear E.
  set (p := fst (getVehicleProfile rnd vid f w)) in *.
  apply generateMock_alerts_In in Ha as (g & x & Hx & Hlt & Hg).
  apply (f_equal gasType) in Hg. cbn [gasType] in Hg.
  destruct (next_reading_numeric p g qt qc q1 q2 q3 q4 x Hw Hl Hx)
    as (z & Hz0 & Hz & Hpos & Hzero).
  assert (threshold_of g < inject_Z z * 2) as Hbig.
  { pose proof (threshold_positive g) as Ht.
    destruct (Z.eq_dec z 0%Z) as [->|Hne].
    - specialize (Hzero ltac:(reflexivity)). destruct g; cbn in *; lra.
    - assert (0 < inject_Z z) as Hq.
      { change 0 with (inject_Z 0). rewrite <- Zlt_Qlt. lia. }
      specialize (Hpos Hq). lra. }
  clear Hpos Hzero Hx Hw.
  rewrite Hg.
  destruct Hl as [Hb | [Hb | [Hb | [Hb | [Hb | Hb]]]]]; rewrite Hb in Hz |- *;
    destruct g; cbn in Hz; try discriminate;
    injection Hz as Hz; subst z; cbn in Hbig;
    solve [split; reflexivity | exfalso; revert Hbig; vm_compute; congruence].
Qed.

(** *** A profile without gas fields *)

Lemma field_less_closed : generation_closed field_less.
Proof. intros p qt qc q1 q2 q3 q4 H. exact H. Qed.

Lemma next_reading_field_less (p : VehicleProfile) (rt rc u1 u2 u3 u4 : number) :
  field_less p -> next_reading p rt rc u1 u2 u3 u4 = no_gas_fields.
Proof.
  intros H. unfold next_reading.
  rewrite !spec_value_NaN by (rewrite H; reflexivity). reflexivity.
Qed.

(** X10.  A profile created from a fuel type that lower-cases to a name
    inherited from [Object.prototype] never recovers: until the vehicle
    is reset, every reading generated for it is [NaN] in all four
    gases, whatever fuel type later calls pass. *)
Theorem inherited_key_poisons_profile (vid : Z) (fuel f : string)
    (w w' : World) (ops : list Op) :
  vehicleProfiles w !! vid = None ->
  EMISSION_BASELINES_get (toLowerCase fuel) = Inherited ->
  keeps vid ops = true ->
  run rnd ops (snd (getVehicleProfile rnd vid fuel w)) = Some w' ->
  fst (generateMockEmissionReading rnd vid f w') = mkBaseline NaN NaN NaN NaN.
Proof.
  intros Hnone Hkey Hk Hrun.
  assert (profile_at vid field_less (snd (getVehicleProfile rnd vid fuel w)))
    as H1.
  { rewrite (getVehicleProfile_fresh rnd vid fuel w Hnone). cbn [snd].
    eexists. split; [cbn; apply lookup_insert_eq|].
    unfold field_less, fresh_profile, baseline_or_petrol. cbn [baseline].
    now rewrite Hkey. }
  destruct (run_at rnd vid _ field_less_closed ops _ _ Hk H1 Hrun)
    as (p & Hp & HP).
  destruct (generateMockEmissionReading_found vid f w' p Hp)
    as (qt & qc & q1 & q2 & q3 & q4 & ->).
  cbn [fst]. now apply next_reading_field_less.
Qed.

End GeneratorMore.

Lemma fuelType_ignored_once_profiled_witness :
  generateMockEmissionReading always_half 1 "diesel"
    (snd (getVehicleProfile always_half 1 "petrol" empty_world)) =
  generateMockEmissionReading always_half 1 "electric"
    (snd (getVehicleProfile always_half 1 "petrol" empty_world)).
Proof.
  exact (proj1 (fuelType_ignored_once_profiled always_half 1 "diesel" "electric"
                  (snd (getVehicleProfile always_half 1 "petrol" empty_world))
                  (fresh_profile 1 "petrol" (Num (1 # 2)) (Num (1 # 2)))
                  eq_refl)).
Defined.

Lemma other_vehicles_untouched_witness :
  vehicleProfiles
    (snd (generateMockEmissionReading always_half 1 "petrol" empty_world)) !! 2%Z
  = vehicleProfiles empty_world !! 2%Z.
Proof.
  apply (other_vehicles_untouched always_half 1 2 "petrol" empty_world).
  discriminate.
Defined.

Lemma history_is_reset_then_generate_witness :
  draws (snd (generateMockEmissionReading always_half 1 "cng" empty_world))
    = 8%nat.
Proof.
  apply (history_is_reset_then_generate always_half 3 1 "cng" 0 None
           empty_world _
           [fst (generateMockEmissionReading always_half 1 "cng" empty_world)]).
  vm_compute. reflexivity.
Defined.

Lemma history_near_clamp_witness :
  Forall (reading_near cng)
    [fst (generateMockEmissionReading always_half 1 "cng" empty_world)].
Proof.
  apply (history_near_clamp always_half 3 1 "cng" 0 None empty_world
           (snd (generateMockEmissionReading always_half 1 "cng" empty_world))).
  vm_compute. reflexivity.
Defined.

Lemma readings_depend_on_own_profile_witness :
  option_map fst
    (generateHistoricalData always_half 5 1 "cng" (1 # 6) None empty_world)
  = option_map fst
      (generateHistoricalData always_half 5 1 "cng" (1 # 6) None
         (mkWorld (vehicleProfiles
                     (snd (getVehicleProfile (fun _ => 0) 1 "diesel" empty_world)))
                  0)).
Proof.
  apply (readings_depend_on_own_profile always_half 1 "cng" empty_world).
  vm_compute. reflexivity.
Defined.

Lemma stored_profiles_bounded_witness :
  listed_baseline
    (baseline (fst (getVehicleProfile always_half 1 "hybrid" empty_world))).
Proof.
  apply (stored_profiles_bounded always_half
           (snd (getVehicleProfile always_half 1 "hybrid" empty_world)) 1).
  - exact always_half_unit.
  - exists 0%nat, [OpGet 1 "hybrid"]. vm_compute. reflexivity.
  - vm_compute. reflexivity.
Defined.

Lemma readings_one_decimal_witness :
  0 <= 5363 # 10 /\ exists z : Z, (0 <= z)%Z /\ 5363 # 10 = inject_Z z / 10.
Proof.
  apply (readings_one_decimal always_half empty_world 1 "diesel" CO2).
  - apply empty_world_reachable.
  - vm_compute. reflexivity.
Defined.

Lemma inherited_key_poisons_profile_witness :
  fst (generateMockEmissionReading always_half 1 "petrol"
         (snd (generateMockEmissionReading always_half 1 "diesel"
                 (snd (getVehicleProfile always_half 1 "Constructor" empty_world)))))
  = mkBaseline NaN NaN NaN NaN.
Proof.
  apply (inherited_key_poisons_profile always_half 1 "Constructor" "petrol"
           empty_world _ [OpGenerate 1 "diesel"]); vm_compute; reflexivity.
Defined.

Lemma diesel_after_five_reachable : reachable always_high diesel_after_five.
Proof.
  exists 0%nat, (repeat (OpGenerate 1 "diesel") 5). vm_compute. reflexivity.
Qed.

Lemma mock_alerts_only_diesel_co2_witness :
  gasType (mkAlert 1 "CO2" (Num (11000 # 10)) (Num 1000)) = "CO2"%string /\
  baseline (fst (getVehicleProfile always_high 1 "diesel" diesel_after_five))
    = diesel.
Proof.
  apply (mock_alerts_only_diesel_co2 always_high diesel_after_five 1 "diesel").
  - exact diesel_after_five_reachable.
  - vm_compute. left. reflexivity.
Defined.

(** * The router procedures *)

Lemma or_null_Some (x : option number) (v : number) :
  or_null x = Some v <-> x = Some v /\ truthy v = true.
Proof.
  unfold or_null. destruct x as [u|]; [|split; [discriminate|intros [[=] _]]].
  destruct (truthy u) eqn:E; split.
  - intros [= <-]. auto.
  - now intros [[= <-] _].
  - discriminate.
  - intros [[= <-] H]. congruence.
Qed.

Lemma or_null_idem (x : option number) : or_null (or_null x) = or_null x.
Proof.
  unfold or_null. destruct x as [u|]; [|reflexivity].
  destruct (truthy u) eqn:E; [now rewrite E|reflexivity].
Qed.

Lemma inserted_readings_app (a b : list Write) :
  inserted_readings (a ++ b) = inserted_readings a ++ inserted_readings b.
Proof. apply flat_map_app. Qed.

Lemma inserted_alerts_app (a b : list Write) :
  inserted_alerts (a ++ b) = inserted_alerts a ++ inserted_alerts b.
Proof. apply flat_map_app. Qed.

Lemma inserted_readings_alerts (l : list Alert) :
  inserted_readings (map InsertAlert l) = [] /\
  inserted_alerts (map InsertAlert l) = l.
Proof.
  induction l as [|a l [IH1 IH2]]; [split; reflexivity|].
  cbn. split; [exact IH1|]. f_equal. exact IH2.
Qed.

Lemma ingest_alerts_evaluate (vid : Z) (i : IngestInput) :
  ingest_alerts vid i = evaluate vid (fun g => input_field g i).
Proof.
  unfold ingest_alerts, evaluate. cbn [flat_map].
  rewrite !ingest_check_evaluate, app_nil_r. reflexivity.
Qed.

(** X11.  [emissions.ingest] for a device no vehicle has throws
    "Vehicle not found" and writes nothing.  Otherwise it inserts one
    reading row for the vehicle and then the alerts of the evaluator;
    the row keeps each gas value that is present and not zero, and
    stores [null] for an absent value and for a measured zero. *)
Theorem ingest_writes (getVehicleByDeviceId : string -> option Vehicle)
    (input : IngestInput) :
  match getVehicleByDeviceId (deviceId input) with
  | None =>
      emissions_ingest getVehicleByDeviceId input
        = (Thrown "Vehicle not found", [])
  | Some vehicle =>
      exists row : ReadingRow,
        emissions_ingest getVehicleByDeviceId input =
          (Returned tt,
           InsertReading row ::
           map InsertAlert
             (evaluate (v_id vehicle) (fun g => input_field g input))) /\
        vehicle_id row = v_id vehicle /\
        forall (g : Gas) (x : number),
          row_field g row = Some x <->
          input_field g input = Some x /\ truthy x = true
  end.
Proof.
  unfold emissions_ingest.
  destruct (getVehicleByDeviceId (deviceId input)) as [vehicle|]; [|reflexivity].
  eexists. split; [|split].
  - rewrite ingest_alerts_evaluate. reflexivity.
  - reflexivity.
  - intros g x. destruct g; cbn [row_field row_co2 row_co row_nox pm_level
                                 input_field];
      rewrite or_null_idem; apply or_null_Some.
Qed.

Section RouterFacts.

Variable rnd : nat -> Q.
Variable getAllVehicles : list Vehicle.
Variable getVehicleById : Z -> option Vehicle.

Lemma mock_for_eq (vehicle : Vehicle) (w : World) :
  mock_for rnd vehicle w =
    let gen := generateMockEmissionReading rnd (v_id vehicle)
                 (v_fuelType vehicle) w in
    ((fst gen,
      InsertReading (row_of (v_id vehicle) (fst gen)) ::
      map InsertAlert (generateMock_alerts (v_id vehicle) (fst gen))),
     snd gen).
Proof.
  unfold mock_for, bind, ret. cbv zeta.
  now destruct (generateMockEmissionReading rnd (v_id vehicle)
                  (v_fuelType vehicle) w).
Qed.

Lemma inserted_readings_one (r : ReadingRow) (l : list Alert) (ws : list Write) :
  inserted_readings ((InsertReading r :: map InsertAlert l) ++ ws)
    = r :: inserted_readings ws.
Proof.
  rewrite inserted_readings_app.
  change (inserted_readings (InsertReading r :: map InsertAlert l))
    with (r :: inserted_readings (map InsertAlert l)).
  now rewrite (proj1 (inserted_readings_alerts l)).
Qed.

Lemma inserted_alerts_one (r : ReadingRow) (l : list Alert) (ws : list Write) :
  inserted_alerts ((InsertReading r :: map InsertAlert l) ++ ws)
    = l ++ inserted_alerts ws.
Proof.
  rewrite inserted_alerts_app.
  change (inserted_alerts (InsertReading r :: map InsertAlert l))
    with (inserted_alerts (map InsertAlert l)).
  now rewrite (proj2 (inserted_readings_alerts l)).
Qed.

Lemma mock_for_all_cons (vehicle : Vehicle) (rest : list Vehicle) (w : World) :
  mock_for_all rnd (vehicle :: rest) w =
    let gen := generateMockEmissionReading rnd (v_id vehicle)
                 (v_fuelType vehicle) w in
    let more := mock_for_all rnd rest (snd gen) in
    ((S (fst (fst more)),
      (InsertReading (row_of (v_id vehicle) (fst gen)) ::
       map InsertAlert (generateMock_alerts (v_id vehicle) (fst gen)))
      ++ snd (fst more)),
     snd more).
Proof.
  cbn [mock_for_all]. unfold bind at 1. rewrite mock_for_eq. cbv zeta.
  unfold bind, ret.
  now destruct (mock_for_all rnd rest _) as [[n ws] w2].
Qed.

Lemma mock_for_all_spec (vehicles : list Vehicle) :
  forall w : World,
    let res := mock_for_all rnd vehicles w in
    fst (fst res) = length vehicles /\
    map vehicle_id (inserted_readings (snd (fst res))) = map v_id vehicles /\
    run rnd (map (fun v => OpGenerate (v_id v) (v_fuelType v)) vehicles) w
      = Some (snd res).
Proof.
  induction vehicles as [|vehicle rest IH]; intros w; cbv zeta.
  - cbn. auto.
  - rewrite mock_for_all_cons. cbv zeta. cbn [fst snd].
    destruct (IH (snd (generateMockEmissionReading rnd (v_id vehicle)
                         (v_fuelType vehicle) w))) as (Hn & Hrows & Hw).
    split; [cbn [length]; now rewrite Hn|]. split.
    + rewrite inserted_readings_one. cbn [map vehicle_id row_of].
      now rewrite Hrows.
    + cbn [map run step]. exact Hw.
Qed.

(** X12.  [emissions.generateMock] with [generateForAll] ignores
    [vehicleId]: it makes one generation call per vehicle, in the order
    of the vehicle list, inserts exactly one reading row per vehicle in
    that order, and reports their number.  Without [generateForAll], a
    missing [vehicleId] and the [vehicleId] 0 both throw, as does an
    identifier no vehicle has; in those cases nothing is written and
    the profile store is untouched. *)
Theorem generateMock_routes (input : MockInput) (w : World) :
  let res := emissions_generateMock rnd getAllVehicles getVehicleById input w in
  (generateForAll input = true ->
   fst (fst res) = Returned (GeneratedAll (length getAllVehicles)) /\
   map vehicle_id (inserted_readings (snd (fst res))) = map v_id getAllVehicles /\
   run rnd (map (fun v => OpGenerate (v_id v) (v_fuelType v)) getAllVehicles) w
     = Some (snd res)) /\
  (generateForAll input = false ->
   (mi_vehicleId input = None \/ mi_vehicleId input = Some 0%Z) ->
   res = ((Thrown "Either vehicleId or generateForAll must be provided", []), w)) /\
  (generateForAll input = false ->
   forall id : Z,
     mi_vehicleId input = Some id -> id <> 0%Z -> getVehicleById id = None ->
     res = ((Thrown "Vehicle not found", []), w)).
Proof.
  cbv zeta. unfold emissions_generateMock. split; [|split].
  - intros ->. unfold bind, ret.
    pose proof (mock_for_all_spec getAllVehicles w) as H. cbv zeta in H.
    destruct (mock_for_all rnd getAllVehicles w) as [[n ws] w'].
    cbn [fst snd] in *. destruct H as (-> & Hrows & Hw). auto.
  - intros -> [-> | ->]; reflexivity.
  - intros -> id -> Hid Hnone. cbn [truthy_id].
    destruct (Z.eqb_spec id 0) as [|_]; [contradiction|].
    now rewrite Hnone.
Qed.

Lemma populateHistory_alerts_cases (vid : Z) (r : number) (d : EmissionBaseline) :
  populateHistory_alerts vid r d = [] \/
  exists x : Q,
    co2 d = Num x /\ 1000 < x /\
    populateHistory_alerts vid r d = [mkAlert vid "CO2" (Num x) (Num 1000)].
Proof.
  unfold populateHistory_alerts. destruct (gt r (Num (9 # 10))); [|now left].
  rewrite mock_check_evaluate. cbn [field evaluate_gas].
  destruct (co2 d) as [x|]; [|now left].
  destruct (Qlt_le_dec (threshold_of CO2) x) as [Hlt|_]; [|now left].
  right. exists x. auto.
Qed.

Lemma store_history_cons (vid : Z) (d : EmissionBaseline)
    (rest : list EmissionBaseline) (w : World) :
  store_history rnd vid (d :: rest) w =
    let more := store_history rnd vid rest
                  (mkWorld (vehicleProfiles w) (S (draws w))) in
    ((S (fst (fst more)),
      (InsertReading (row_of vid d) ::
       map InsertAlert (populateHistory_alerts vid (Num (rnd (draws w))) d))
      ++ snd (fst more)),
     snd more).
Proof.
  cbn [store_history]. unfold bind, ret, Math_random. cbv zeta.
  now destruct (store_history rnd vid rest _) as [[n ws] w2].
Qed.

Lemma store_history_spec (vid : Z) (data : list EmissionBaseline) :
  forall w : World,
    let res := store_history rnd vid data w in
    fst (fst res) = length data /\
    inserted_readings (snd (fst res)) = map (row_of vid) data /\
    Forall (co2_alert_for vid) (inserted_alerts (snd (fst res))) /\
    (length (inserted_alerts (snd (fst res))) <= length data)%nat /\
    draws (snd res) = (draws w + length data)%nat /\
    vehicleProfiles (snd res) = vehicleProfiles w.
Proof.
  induction data as [|d rest IH]; intros w; cbv zeta.
  - cbn. repeat split; try constructor. lia.
  - rewrite store_history_cons. cbv zeta. cbn [fst snd].
    destruct (IH (mkWorld (vehicleProfiles w) (S (draws w))))
      as (Hn & Hrows & Hal & Hlen & Hd & Hp).
    cbn [draws vehicleProfiles] in Hd, Hp.
    rewrite inserted_readings_one, inserted_alerts_one.
    split; [cbn [length]; now rewrite Hn|].
    split; [cbn [map]; now rewrite Hrows|].
    destruct (populateHistory_alerts_cases vid (Num (rnd (draws w))) d)
      as [->|(x & _ & Hx & ->)]; cbn [app length].
    + split; [exact Hal|]. split; [lia|]. split; [lia|exact Hp].
    + split; [constructor; [now exists x|exact Hal]|].
      split; [lia|]. split; [lia|exact Hp].
Qed.

(** X13.  The single-vehicle branch of [emissions.populateHistory],
    when it returns, stores one row per reading of the backfill, in
    order, and reports their number; the only alerts it creates are CO2
    alerts of that vehicle with a measured value above 1000, at most
    one per reading; it makes one more draw per reading and does not
    touch the profiles the backfill left. *)
Theorem populateHistory_one (fuel : nat) (input : HistoryInput) (id : Z)
    (vehicle : Vehicle) (w w' : World) (out : Outcome HistoryResult)
    (writes : list Write) :
  truthy_id (hi_vehicleId input) = Some id ->
  getVehicleById id = Some vehicle ->
  emissions_populateHistory rnd getAllVehicles getVehicleById fuel input w
    = Some ((out, writes), w') ->
  exists (data : list EmissionBaseline) (w1 : World),
    generateHistoricalData rnd fuel (v_id vehicle) (v_fuelType vehicle)
      (hi_hoursBack input) (Some (hi_intervalMinutes input)) w
      = Some (data, w1) /\
    out = Returned (BackfilledOne (v_id vehicle) (length data)) /\
    inserted_readings writes = map (row_of (v_id vehicle)) data /\
    Forall (co2_alert_for (v_id vehicle)) (inserted_alerts writes) /\
    (length (inserted_alerts writes) <= length data)%nat /\
    draws w' = (draws w1 + length data)%nat /\
    vehicleProfiles w' = vehicleProfiles w1.
Proof.
  intros Hid Hv. unfold emissions_populateHistory. rewrite Hid, Hv.
  destruct (generateHistoricalData rnd fuel _ _ _ _ w) as [[data w1]|];
    [|discriminate].
  pose proof (store_history_spec (v_id vehicle) data w1) as H. cbv zeta in H.
  destruct (store_history rnd (v_id vehicle) data w1) as [[n ws] w2].
  cbn [fst snd] in H. destruct H as (-> & Hrows & Hal & Hlen & Hd & Hp).
  intros [= <- <- <-]. exists data, w1. auto 10.
Qed.

Lemma store_readings_spec (vid : Z) (data : list EmissionBaseline) :
  inserted_readings (store_readings vid data) = map (row_of vid) data /\
  inserted_alerts (store_readings vid data) = [].
Proof.
  induction data as [|d rest [IH1 IH2]]; [split; reflexivity|].
  cbn. split; [now f_equal|exact IH2].
Qed.

Lemma history_for_all_spec (fuel : nat) (input : HistoryInput)
    (vehicles : list Vehicle) :
  forall (w w' : World) (totals : list (Z * nat)) (writes : list Write),
    history_for_all rnd fuel input vehicles w = Some ((totals, writes), w') ->
    map fst totals = map v_id vehicles /\
    inserted_alerts writes = [] /\
    length (inserted_readings writes) = list_sum (map snd totals).
Proof.
  induction vehicles as [|vehicle rest IH]; intros w w' totals writes;
    cbn [history_for_all].
  - intros [= <- <- <-]. auto.
  - destruct (generateHistoricalData rnd fuel _ _ _ _ w) as [[data w1]|];
      [|discriminate].
    destruct (history_for_all rnd fuel input rest w1) as [[[ts ws] w2]|] eqn:E;
      [|discriminate].
    intros [= <- <- <-]. destruct (IH _ _ _ _ E) as (Hids & Hal & Hlen).
    destruct (store_readings_spec (v_id vehicle) data) as [Hr Ha].
    split; [cbn; now rewrite Hids|]. split.
    + now rewrite inserted_alerts_app, Ha, Hal.
    + rewrite inserted_readings_app, length_app, Hr, length_map, Hlen.
      reflexivity.
Qed.

(** X14.  Without a [vehicleId], or with the [vehicleId] 0, which is
    falsy, [emissions.populateHistory] backfills every vehicle: when it
    returns it reports one count per vehicle, in the order of the
    vehicle list, stores as many rows as the counts add up to, and
    creates no alert at all. *)
Theorem populateHistory_all (fuel : nat) (input : HistoryInput) (w w' : World)
    (out : Outcome HistoryResult) (writes : list Write) :
  hi_vehicleId input = None \/ hi_vehicleId input = Some 0%Z ->
  emissions_populateHistory rnd getAllVehicles getVehicleById fuel input w
    = Some ((out, writes), w') ->
  exists totals : list (Z * nat),
    out = Returned (BackfilledAll totals) /\
    map fst totals = map v_id getAllVehicles /\
    inserted_alerts writes = [] /\
    length (inserted_readings writes) = list_sum (map snd totals).
Proof.
  intros Hid. unfold emissions_populateHistory.
  assert (truthy_id (hi_vehicleId input) = None) as ->
    by (destruct Hid as [-> | ->]; reflexivity).
  destruct (history_for_all rnd fuel input getAllVehicles w)
    as [[[totals ws] w1]|] eqn:E; [|discriminate].
  intros [= <- <- <-]. exists totals. split; [reflexivity|].
  eapply history_for_all_spec. exact E.
Qed.

Lemma or_null_zero (a : number) : a ≃ Num 0 -> or_null (Some a) = None.
Proof.
  destruct a as [x|]; [|contradiction]. cbn. intros Hx.
  apply Qeq_bool_iff in Hx. now rewrite Hx.
Qed.

Lemma mock_check_zero (vid : Z) (g : Gas) (r : EmissionBaseline) :
  field g r ≃ Num 0 -> mock_check vid g r = [].
Proof.
  intros H. rewrite mock_check_evaluate. unfold evaluate_gas.
  destruct (field g r) as [x|]; [|reflexivity]. cbn in H.
  destruct (Qlt_le_dec (threshold_of g) x) as [Hlt|_]; [|reflexivity].
  pose proof (threshold_positive g). lra.
Qed.

Lemma electric_pm_below_threshold (p : VehicleProfile) (tm cf u : number) :
  baseline p = electric ->
  gt (spec_value p PM tm cf u) (Num 100) = false.
Proof.
  intros Hb. unfold spec_value. rewrite Hb. cbn [field pmLevel electric].
  match goal with |- context [clamp _ ?S] => destruct S as [s|] end;
    [|reflexivity].
  unfold clamp. change (strict_eq (Num 5) (Num 0)) with false. cbn iota.
  cbn [JS.mul Math_max Math_min lift2]. rewrite round1_Num, gt_Num.
  destruct (Qlt_le_dec 100 _) as [Hlt|_]; [|reflexivity].
  exfalso.
  pose proof (Qmax_Qmin_bounds (5 * (2 # 10)) (5 * 2) s) as Hy.
  destruct (round_tenth_bounds 10 100 (Qmax (5 * (2 # 10)) (Qmin s (5 * 2))))
    as [_ H2].
  - change (inject_Z 10) with 10. lra.
  - change (inject_Z 100) with 100. lra.
  - change (inject_Z 100) with 100 in H2.
    set (r := inject_Z (Qfloor _)) in *. clearbody r.
    unfold Qdiv in *. cbn [Qinv Qnum Qden] in *. lra.
Qed.

(** X15.  For a vehicle whose profile was created from the fuel type
    "electric" and not reset since, [emissions.generateMock] stores co2,
    co and nox as [null], not as 0, and creates no alert. *)
Theorem electric_rows_are_null (vehicle : Vehicle) (fuel : string)
    (w w' : World) (ops : list Op) :
  vehicleProfiles w !! v_id vehicle = None ->
  toLowerCase fuel = "electric"%string ->
  keeps (v_id vehicle) ops = true ->
  run rnd ops (snd (getVehicleProfile rnd (v_id vehicle) fuel w)) = Some w' ->
  exists row : ReadingRow,
    snd (fst (mock_for rnd vehicle w')) = [InsertReading row] /\
    row_co2 row = None /\ row_co row = None /\ row_nox row = None.
Proof.
  intros Hnone Hfuel Hk Hrun.
  assert (profile_at (v_id vehicle) emits_nothing
            (snd (getVehicleProfile rnd (v_id vehicle) fuel w))) as H1.
  { rewrite (getVehicleProfile_fresh rnd _ fuel w Hnone). cbn [snd].
    eexists. split; [cbn; apply lookup_insert_eq|].
    now apply emits_nothing_fresh. }
  destruct (run_at rnd _ _ emits_nothing_closed ops _ _ Hk H1 Hrun)
    as (p & Hp & HP).
  pose proof (emits_nothing_closed p) as Hc.
  destruct (generateMockEmissionReading_found rnd (v_id vehicle)
              (v_fuelType vehicle) w' p Hp)
    as (qt & qc & q1 & q2 & q3 & q4 & Hgen).
  specialize (Hc qt qc q1 q2 q3 q4 HP).
  destruct Hc as (_ & _ & l & Hl & Hz2 & Hz1 & Hz3).
  cbn [lastReading set_lastReading] in Hl. injection Hl as <-.
  rewrite mock_for_eq. cbv zeta. rewrite Hgen. cbn [fst snd].
  exists (row_of (v_id vehicle)
            (next_reading p (Num qt) (Num qc) (Num q1) (Num q2) (Num q3) (Num q4))).
  split; [|cbn [row_of row_co2 row_co row_nox]; now rewrite !or_null_zero].
  f_equal. unfold generateMock_alerts.
  rewrite (mock_check_zero _ CO2), (mock_check_zero _ CO),
    (mock_check_zero _ NOx) by assumption.
  cbn [app]. unfold mock_check. cbn [field next_reading pmLevel thresholds].
  destruct HP as (Hb & _).
  now rewrite (electric_pm_below_threshold p _ _ _ Hb).
Qed.

End RouterFacts.

Lemma generateMock_routes_witness :
  emissions_generateMock always_half two_vehicles vehicle_of_id
    (mkMockInput (Some 0%Z) false) empty_world
  = ((Thrown "Either vehicleId or generateForAll must be provided", []),
     empty_world).
Proof.
  apply (generateMock_routes always_half two_vehicles vehicle_of_id
           (mkMockInput (Some 0%Z) false) empty_world).
  - reflexivity.
  - right. reflexivity.
Defined.

Lemma populateHistory_one_witness :
  exists (data : list EmissionBaseline) (w1 : World),
    generateHistoricalData always_half 3 1 "diesel" 0 (Some 5) empty_world
      = Some (data, w1) /\
    length data = 1%nat.
Proof.
  destruct (populateHistory_one always_half two_vehicles vehicle_of_id 3
              (mkHistoryInput (Some 1%Z) 0 5) 1 (mkVehicle 1 "diesel" "dev-1")
              empty_world
              (snd (store_history always_half 1
                      [fst (generateMockEmissionReading always_half 1 "diesel"
                              empty_world)]
                      (snd (generateMockEmissionReading always_half 1 "diesel"
                              empty_world))))
              (Returned (BackfilledOne 1 1))
              [InsertReading
                 (row_of 1 (fst (generateMockEmissionReading always_half 1
                                   "diesel" empty_world)))])
    as (data & w1 & Hh & Hout & _).
  - reflexivity.
  - reflexivity.
  - vm_compute. reflexivity.
  - exists data, w1. split; [exact Hh|]. now injection Hout as <-.
Defined.

Lemma populateHistory_all_witness :
  exists totals : list (Z * nat),
    map fst totals = [1%Z; 2%Z] /\ list_sum (map snd totals) = 2%nat.
Proof.
  destruct (populateHistory_all always_half two_vehicles vehicle_of_id 3
              (mkHistoryInput (Some 0%Z) 0 5) empty_world
              (snd (generate_n always_half 1 2 "Electric"
                      (snd (generate_n always_half 1 1 "diesel" empty_world))))
              (Returned (BackfilledAll [(1%Z, 1%nat); (2%Z, 1%nat)]))
              (store_readings 1
                 (fst (generate_n always_half 1 1 "diesel" empty_world)) ++
               store_readings 2
                 (fst (generate_n always_half 1 2 "Electric"
                         (snd (generate_n always_half 1 1 "diesel" empty_world))))))
    as (totals & Hout & Hids & _ & Hlen).
  - right. reflexivity.
  - vm_compute. reflexivity.
  - exists totals. split; [exact Hids|]. rewrite <- Hlen. reflexivity.
Defined.

Lemma electric_rows_are_null_witness :
  exists row : ReadingRow,
    snd (fst (mock_for always_half (mkVehicle 2 "Electric" "dev-2")
                (snd (getVehicleProfile always_half 2 "Electric" empty_world))))
      = [InsertReading row] /\
    row_co2 row = None /\ row_co row = None /\ row_nox row = None.
Proof.
  apply (electric_rows_are_null always_half (mkVehicle 2 "Electric" "dev-2")
           "Electric" empty_world _ []); reflexivity.
Defined.

(** * The client address *)

Lemma append_cons (c : ascii) (a b : string) :
  (String c a ++ b)%string = String c (a ++ b)%string.
Proof. reflexivity. Qed.

Lemma trim_start_suffix (s : string) :
  exists pre : string, s = (pre ++ trim_start s)%string.
Proof.
  induction s as [|c s [pre IH]]; [now exists ""%string|]. cbn [trim_start].
  destruct (is_space c).
  - exists (String c pre). rewrite append_cons. now f_equal.
  - now exists ""%string.
Qed.

Lemma trim_end_prefix (s : string) :
  exists post : string, s = (trim_end s ++ post)%string.
Proof.
  induction s as [|c s [post IH]]; [now exists ""%string|]. cbn [trim_end].
  destruct (is_space c && is_empty (trim_end s)).
  - now exists (String c s).
  - exists post. rewrite append_cons. now f_equal.
Qed.

Lemma before_comma_prefix (s : string) :
  exists post : string, s = (before_comma s ++ post)%string.
Proof.
  induction s as [|c s [post IH]]; [now exists ""%string|].
  cbn [before_comma].
  destruct (Ascii.eqb c ","%char).
  - now exists (String c s).
  - exists post. rewrite append_cons. now f_equal.
Qed.

Lemma before_comma_no_comma (s : string) :
  has_char ","%char (before_comma s) = false.
Proof.
  induction s as [|c s IH]; [reflexivity|]. cbn.
  destruct (Ascii.eqb c ","%char) eqn:E; [reflexivity|].
  cbn. now rewrite E.
Qed.

Lemma string_app_assoc3 (pre r post2 post1 : string) :
  ((pre ++ (r ++ post2)) ++ post1 = pre ++ r ++ post2 ++ post1)%string.
Proof.
  induction pre as [|c pre IH].
  - change (""%string ++ ?x)%string with x.
    induction r as [|c r IH]; [reflexivity|].
    rewrite !append_cons. now f_equal.
  - rewrite !append_cons. now f_equal.
Qed.

Lemma trim_start_no_new_char (c : ascii) (s : string) :
  has_char c s = false -> has_char c (trim_start s) = false.
Proof.
  induction s as [|d s IH]; [reflexivity|]. cbn. intros H.
  destruct (is_space d); [|exact H].
  apply orb_false_iff in H as [_ H]. now apply IH.
Qed.

Lemma trim_end_no_new_char (c : ascii) (s : string) :
  has_char c s = false -> has_char c (trim_end s) = false.
Proof.
  induction s as [|d s IH]; [reflexivity|]. cbn. intros H.
  apply orb_false_iff in H as [Hd H].
  destruct (is_space d && is_empty (trim_end s)); [reflexivity|].
  cbn. now rewrite Hd, IH.
Qed.

Lemma trim_no_new_char (c : ascii) (s : string) :
  has_char c s = false -> has_char c (trim s) = false.
Proof.
  intros H. now apply trim_end_no_new_char, trim_start_no_new_char.
Qed.

Lemma trim_start_first (s : string) (c : ascii) :
  first_char (trim_start s) = Some c -> is_space c = false.
Proof.
  induction s as [|d s IH]; [discriminate|]. cbn.
  destruct (is_space d) eqn:E; [exact IH|]. cbn. now intros [= <-].
Qed.

Lemma trim_end_first (s : string) (c : ascii) :
  first_char (trim_end s) = Some c -> first_char s = Some c.
Proof.
  destruct s as [|d s]; [discriminate|]. cbn.
  now destruct (is_space d && is_empty (trim_end s)).
Qed.

Lemma trim_end_last (s : string) (c : ascii) :
  last_char (trim_end s) = Some c -> is_space c = false.
Proof.
  induction s as [|d s IH]; [discriminate|]. cbn.
  destruct (is_space d) eqn:E; cbn [andb].
  - destruct (trim_end s) as [|e t] eqn:Et; cbn [is_empty]; [discriminate|].
    cbn [last_char]. exact IH.
  - destruct (trim_end s) as [|e t] eqn:Et.
    + cbn. now intros [= <-].
    + cbn [last_char]. exact IH.
Qed.

Lemma trim_trimmed (s : string) : trimmed (trim s).
Proof.
  split; intros c H.
  - apply trim_end_first in H. now apply trim_start_first in H.
  - now apply trim_end_last in H.
Qed.

Lemma trim_end_id (s : string) :
  (forall c, last_char s = Some c -> is_space c = false) -> trim_end s = s.
Proof.
  induction s as [|d s IH]; [reflexivity|]. intros H. cbn.
  destruct s as [|e t].
  - cbn. rewrite (H d eq_refl). reflexivity.
  - rewrite IH by (intros c Hc; apply H; exact Hc).
    cbn [is_empty]. now rewrite andb_false_r.
Qed.

Lemma trim_id (s : string) : trimmed s -> trim s = s.
Proof.
  intros [Hf Hl]. unfold trim.
  assert (trim_start s = s) as ->.
  { destruct s as [|c s]; [reflexivity|]. cbn. now rewrite (Hf c eq_refl). }
  now apply trim_end_id.
Qed.

Lemma before_comma_id (s : string) :
  has_char ","%char s = false -> before_comma s = s.
Proof.
  induction s as [|c s IH]; [reflexivity|]. cbn. intros H.
  apply orb_false_iff in H as [-> H]. now rewrite IH.
Qed.

(** X16.  When the [x-forwarded-for] header is a string, [getClientIp]
    always answers with a string (possibly empty), never with the
    socket address: a piece of the header that contains no comma and
    neither starts nor ends with white space; a header that is already
    such a string is returned as it is.  Without the header the answer
    is the socket address, or [null] when that is missing or empty. *)
Theorem getClientIp_spec (s : string) (remoteAddress : option string) :
  (exists r : string,
     getClientIp (OneValue s) remoteAddress = Some r /\
     has_char ","%char r = false /\
     trimmed r /\
     (exists pre post : string, s = (pre ++ r ++ post)%string) /\
     (has_char ","%char s = false -> trimmed s -> r = s)) /\
  getClientIp NoHeader remoteAddress = string_or_null remoteAddress /\
  (remoteAddress = None \/ remoteAddress = Some ""%string ->
   getClientIp NoHeader remoteAddress = None).
Proof.
  split; [|split].
  - exists (trim (before_comma s)). split; [reflexivity|].
    split; [apply trim_no_new_char, before_comma_no_comma|].
    split; [apply trim_trimmed|]. split.
    + destruct (before_comma_prefix s) as [post1 H1].
      destruct (trim_start_suffix (before_comma s)) as [pre H2].
      destruct (trim_end_prefix (trim_start (before_comma s))) as [post2 H3].
      exists pre, (post2 ++ post1)%string. unfold trim.
      set (r := trim_end (trim_start (before_comma s))) in *.
      set (m := trim_start (before_comma s)) in *.
      set (b := before_comma s) in *.
      rewrite H1, H2, H3. apply string_app_assoc3.
    + intros Hc Ht. rewrite (before_comma_id s Hc). now apply trim_id.
  - reflexivity.
  - intros [-> | ->]; reflexivity.
Qed.

Lemma getClientIp_spec_witness :
  getClientIp NoHeader (Some ""%string) = None.
Proof.
  apply (getClientIp_spec "203.0.113.7, 10.0.0.1" (Some ""%string)).
  right. reflexivity.
Defined.

Lemma getClientIp_example :
  getClientIp (OneValue " 203.0.113.7 , 10.0.0.1") (Some "10.0.0.9"%string)
    = Some "203.0.113.7"%string /\
  getClientIp (OneValue "") (Some "10.0.0.9"%string) = Some ""%string.
Proof. split; reflexivity. Qed.

(** * The chat messages *)

Lemma copy_messages (l : list ChatMessage) :
  map (fun msg => {| role := role msg; content := content msg |}) l = l.
Proof.
  induction l as [|[r c] l IH]; [reflexivity|]. cbn. now rewrite IH.
Qed.

(** X17.  The list [ai.chat] sends to the model always holds a message
    of role [system]; it is the input itself when the input has one,
    and the input behind the fixed system prompt when it has none; and
    preparing an already prepared list changes nothing. *)
Theorem chat_messages_spec (messages : list ChatMessage) :
  let sent := chat_messages messages in
  existsb (fun msg => is_system (role msg)) sent = true /\
  (existsb (fun msg => is_system (role msg)) messages = true ->
   sent = messages) /\
  (existsb (fun msg => is_system (role msg)) messages = false ->
   sent = system_prompt :: messages) /\
  chat_messages sent = sent.
Proof.
  cbv zeta. unfold chat_messages. rewrite copy_messages.
  destruct (existsb _ messages) eqn:E; cbn [negb].
  - rewrite copy_messages, E. cbn [negb].
    split; [reflexivity|]. split; [reflexivity|]. split; [discriminate|reflexivity].
  - rewrite copy_messages. cbn [existsb role system_prompt is_system orb negb].
    split; [reflexivity|]. split; [discriminate|]. split; reflexivity.
Qed.

Lemma chat_messages_spec_witness :
  chat_messages [mkMessage role_user "Is 1100 ppm of CO2 too much?"]
  = [system_prompt; mkMessage role_user "Is 1100 ppm of CO2 too much?"].
Proof.
  exact (proj1 (proj2 (proj2
           (chat_messages_spec
              [mkMessage role_user "Is 1100 ppm of CO2 too much?"])))
           eq_refl).
Defined.

Lemma ingest_writes_witness :
  emissions_ingest (fun _ => None) (mkIngest "dev-9" (Some (Num 0)) None None None)
  = (Thrown "Vehicle not found", []).
Proof.
  exact (ingest_writes (fun _ => None)
           (mkIngest "dev-9" (Some (Num 0)) None None None)).
Defined.


(** * The generator in binary64 *)

Section Binary64Facts.

Variable rnd : nat -> float.
Variables (vid : Z) (f : string).

Lemma b64_getVehicleProfile_found (w : B64.World) (p : B64.VehicleProfile) :
  B64.vehicleProfiles w !! vid = Some p ->
  B64.getVehicleProfile rnd vid f w = (p, w).
Proof. intros H. unfold B64.getVehicleProfile. now rewrite H. Qed.

Lemma b64_getVehicleProfile_fresh (w : B64.World) :
  B64.vehicleProfiles w !! vid = None ->
  let p := B64.fresh_profile vid f (rnd (B64.draws w)) (rnd (S (B64.draws w))) in
  B64.getVehicleProfile rnd vid f w =
    (p, B64.mkWorld (<[vid := p]> (B64.vehicleProfiles w)) (S (S (B64.draws w)))).
Proof. intros H. unfold B64.getVehicleProfile. now rewrite H. Qed.

Lemma b64_generateValue_eq (p : B64.VehicleProfile) (g : Gas) (tm cf : float)
    (w : B64.World) :
  B64.generateValue rnd (B64.volatility p) tm (B64.field g (B64.baseline p))
    (option_map (B64.field g) (B64.lastReading p))
    (- B64.variation_bound g * cf)%float (B64.variation_bound g * cf)%float w
  = (B64.spec_value p g tm cf (rnd (B64.draws w)),
     B64.mkWorld (B64.vehicleProfiles w) (S (B64.draws w))).
Proof.
  unfold B64.generateValue, B64.bind, B64.ret, B64.Math_random, B64.spec_value,
    B64.spec_variation, B64.spec_reference, B64.spec_round1, B64.spec_clamp,
    B64.clamp_to.
  now destruct (B64.lastReading p).
Qed.

Lemma b64_generateMockEmissionReading_eq (w : B64.World) :
  let p := fst (B64.getVehicleProfile rnd vid f w) in
  let w1 := snd (B64.getVehicleProfile rnd vid f w) in
  let n := B64.draws w1 in
  let tm := B64.trendMultiplier (B64.trend p) (rnd n) in
  let cf := B64.correlation_of (rnd (S n)) in
  let r := B64.mkBaseline
             (B64.spec_value p CO2 tm cf (rnd (S (S n))))
             (B64.spec_value p CO tm cf (rnd (S (S (S n)))))
             (B64.spec_value p NOx tm cf (rnd (S (S (S (S n))))))
             (B64.spec_value p PM tm cf (rnd (S (S (S (S (S n))))))) in
  B64.generateMockEmissionReading rnd vid f w =
    (r, B64.mkWorld (<[vid := B64.set_lastReading p r]> (B64.vehicleProfiles w1))
                    (S (S (S (S (S (S n))))))).
Proof.
  cbv zeta. unfold B64.generateMockEmissionReading at 1. unfold B64.bind at 1.
  destruct (B64.getVehicleProfile rnd vid f w) as [p w1]. cbn [fst snd].
  unfold B64.bind at 1. unfold B64.Math_random at 1.
  unfold B64.bind at 1. unfold B64.Math_random at 1.
  cbn [B64.vehicleProfiles B64.draws].
  fold (B64.correlation_of (rnd (S (B64.draws w1)))).
  unfold B64.bind at 1.
  change (-0.2)%float with (- B64.variation_bound CO2)%float at 1.
  change 0.2%float with (B64.variation_bound CO2) at 1.
  rewrite (b64_generateValue_eq p CO2). cbn [B64.vehicleProfiles B64.draws].
  unfold B64.bind at 1.
  change (-0.25)%float with (- B64.variation_bound CO)%float at 1.
  change 0.25%float with (B64.variation_bound CO) at 1.
  rewrite (b64_generateValue_eq p CO). cbn [B64.vehicleProfiles B64.draws].
  unfold B64.bind at 1.
  change (-0.2)%float with (- B64.variation_bound NOx)%float at 1.
  change 0.2%float with (B64.variation_bound NOx) at 1.
  rewrite (b64_generateValue_eq p NOx). cbn [B64.vehicleProfiles B64.draws].
  unfold B64.bind at 1.
  change (-0.3)%float with (- B64.variation_bound PM)%float at 1.
  change 0.3%float with (B64.variation_bound PM) at 1.
  rewrite (b64_generateValue_eq p PM). cbn [B64.vehicleProfiles B64.draws].
  reflexivity.
Qed.


(** Claim C1.  In every call [generateMockEmissionReading(vehicleId,
    fuelType)] and for each of the four gases, the value returned is the
    one the specification describes, computed in binary64: the reference
    is the last reading of the profile when present and the baseline
    otherwise; the variation is the uniform draw of that gas placed
    within its bounds scaled by the shared correlation factor; the
    reference plus [reference * volatility * variation] is multiplied
    by the trend multiplier, clamped ([0, 10] for a zero baseline,
    [baseline*0.2, baseline*2] otherwise) and rounded to one decimal.
    The draws are those that follow the profile lookup: trend,
    correlation, then one per gas in the order co2, co, nox, pmLevel. *)
Theorem b64_generated_value_formula (w : B64.World) (g : Gas) :
  let p := fst (B64.getVehicleProfile rnd vid f w) in
  let n := B64.draws (snd (B64.getVehicleProfile rnd vid f w)) in
  B64.field g (fst (B64.generateMockEmissionReading rnd vid f w)) =
    B64.spec_value p g
      (B64.trendMultiplier (B64.trend p) (rnd n))
      (B64.correlation_of (rnd (n + 1)%nat))
      (rnd (n + 2 + gas_index g)%nat).
Proof.
  cbv zeta. rewrite b64_generateMockEmissionReading_eq. cbn [fst].
  assert (forall a b : nat, a = b -> rnd a = rnd b) as E
    by (intros a b ->; reflexivity).
  rewrite (E (B64.draws (snd (B64.getVehicleProfile rnd vid f w)) + 1)%nat
             (S (B64.draws (snd (B64.getVehicleProfile rnd vid f w))))) by lia.
  destruct g; cbn [B64.field B64.co2 B64.co B64.nox B64.pmLevel gas_index];
    f_equal; apply E; lia.
Qed.

(** *** The backfill *)

Lemma b64_history_loop_finite (z : Z) :
  forall (fuel : nat) (i : Z) (data : list B64.EmissionBaseline) (w : B64.World),
    (Z.to_nat (z + 1 - i) < fuel)%nat ->
    exists (more : list B64.EmissionBaseline) (w' : B64.World),
      B64.history_loop rnd fuel vid f (Finite z) i data w
        = Some (data ++ more, w') /\
      length more = Z.to_nat (z + 1 - i).
Proof.
  induction fuel as [|fuel IH]; intros i data w Hfuel; [lia|].
  cbn [B64.history_loop le_bound].
  destruct (Z.leb_spec i z) as [Hle|Hgt].
  - destruct (B64.generateMockEmissionReading rnd vid f w) as [r w1].
    destruct (IH (i + 1)%Z (data ++ [r]) w1) as (more & w' & -> & Hlen); [lia|].
    exists (r :: more), w'. split.
    + now rewrite <- app_assoc.
    + cbn [length]. rewrite Hlen. lia.
  - exists [], w. split; [now rewrite app_nil_r|]. cbn. lia.
Qed.

Lemma b64_history_loop_first (points : Bound) (fuel : nat) (w : B64.World) :
  le_bound 0 points = true ->
  forall res,
    B64.history_loop rnd fuel vid f points 0 [] w = Some res ->
    hd_error (fst res)
      = Some (fst (B64.generateMockEmissionReading rnd vid f w)).
Proof.
  intros Hle res. destruct fuel as [|fuel]; cbn [B64.history_loop];
    [discriminate|].
  rewrite Hle. destruct (B64.generateMockEmissionReading rnd vid f w) as [r w1].
  cbn [app fst].
  assert (forall fuel i data w res,
            B64.history_loop rnd fuel vid f points i (r :: data) w = Some res ->
            hd_error (fst res) = Some r) as H.
  { clear. induction fuel as [|fuel IH]; intros i data w res;
      cbn [B64.history_loop]; [discriminate|].
    destruct (le_bound i points).
    - destruct (B64.generateMockEmissionReading rnd vid f w) as [r' w'].
      apply (IH _ (data ++ [r'])).
    - intros [= <-]. reflexivity. }
  apply (H fuel _ []).
Qed.

Lemma b64_history_loop_diverges (fuel : nat) :
  forall (i : Z) (data : list B64.EmissionBaseline) (w : B64.World),
    B64.history_loop rnd fuel vid f PlusInfinity i data w = None.
Proof.
  induction fuel as [|fuel IH]; intros i data w;
    cbn [B64.history_loop le_bound]; [reflexivity|].
  destruct (B64.generateMockEmissionReading rnd vid f w) as [r w1]. apply IH.
Qed.

Lemma b64_generateHistoricalData_start (fuel : nat) (h : float)
    (i : option float) (w : B64.World) :
  let fresh := B64.fresh_profile vid f (rnd (B64.draws w))
                 (rnd (S (B64.draws w))) in
  B64.generateHistoricalData rnd fuel vid f h i w =
    B64.history_loop rnd fuel vid f (B64.points_of h (nullish i 5%float)) 0 []
      (B64.mkWorld (<[vid := fresh]> (delete vid (B64.vehicleProfiles w)))
                   (S (S (B64.draws w)))).
Proof.
  cbv zeta. unfold B64.generateHistoricalData, B64.resetVehicleProfile.
  rewrite b64_getVehicleProfile_fresh by (cbn; apply lookup_delete_eq).
  reflexivity.
Qed.

(** Claim C7, amended.  Let [P] be
    [Math.floor((hoursBack * 60) / intervalMinutes)] evaluated in
    binary64, with [intervalMinutes] 5 when omitted.  Whenever [P] is
    finite and [P + 1] is below [2^32], the bound on the length of an
    array, [generateHistoricalData] returns, and returns
    [max(0, P + 1)] readings, which is [P + 1] whenever [P >= -1].  It
    first deletes the profile of the vehicle and creates a fresh one
    from the fuel type of the call, so that the loop starts from that
    fresh profile and the first reading is generated from it. *)
Theorem b64_history_length (h : float) (i : option float) (w : B64.World)
    (fuel : nat) (P : Z) :
  B64.points_of h (nullish i 5%float) = Finite P ->
  (P + 1 < 2 ^ 32)%Z ->
  (Z.to_nat (P + 1) < fuel)%nat ->
  let fresh := B64.fresh_profile vid f (rnd (B64.draws w))
                 (rnd (S (B64.draws w))) in
  let w0 := B64.mkWorld (<[vid := fresh]> (delete vid (B64.vehicleProfiles w)))
                        (S (S (B64.draws w))) in
  exists (data : list B64.EmissionBaseline) (w' : B64.World),
    B64.generateHistoricalData rnd fuel vid f h i w = Some (data, w') /\
    length data = Z.to_nat (P + 1) /\
    ((-1 <= P)%Z -> Z.of_nat (length data) = (P + 1)%Z) /\
    B64.history_loop rnd fuel vid f (Finite P) 0 [] w0 = Some (data, w') /\
    ((0 <= P)%Z ->
     hd_error data
       = Some (fst (B64.generateMockEmissionReading rnd vid f w0))).
Proof.
  intros HP _ Hfuel fresh w0.
  pose proof (b64_generateHistoricalData_start fuel h i w) as Hs.
  cbv zeta in Hs. rewrite HP in Hs. fold fresh in Hs. fold w0 in Hs.
  destruct (b64_history_loop_finite P fuel 0 [] w0)
    as (more & w' & Hloop & Hlen).
  { replace (P + 1 - 0)%Z with (P + 1)%Z by lia. exact Hfuel. }
  cbn [app] in Hloop.
  replace (P + 1 - 0)%Z with (P + 1)%Z in Hlen by lia.
  exists more, w'. split; [now rewrite Hs|]. split; [exact Hlen|].
  split; [rewrite Hlen; lia|]. split; [exact Hloop|].
  intros H0.
  apply (b64_history_loop_first (Finite P) fuel w0) with (res := (more, w')).
  - cbn. now apply Z.leb_le.
  - exact Hloop.
Qed.

(** X9.  When the bound
    [Math.floor((hoursBack * 60) / intervalMinutes)] is [+Infinity] the
    backfill never returns; when it is [-Infinity] or [NaN] it returns
    no reading, after having replaced the profile of the vehicle by a
    fresh one.  The bound is [+Infinity] for [intervalMinutes] [+0] or
    [1e-320] with [hoursBack] 1 and for [hoursBack] [1e307];
    it is [-Infinity] for [intervalMinutes] [-0] with [hoursBack] 1, and
    [NaN] for [0/0]. *)
Theorem b64_history_without_finite_bound (h : float) (i : option float)
    (w : B64.World) :
  (B64.points_of h (nullish i 5%float) = PlusInfinity ->
   forall fuel : nat, B64.generateHistoricalData rnd fuel vid f h i w = None) /\
  (B64.points_of h (nullish i 5%float) = MinusInfinity \/
   B64.points_of h (nullish i 5%float) = NaNBound ->
   forall fuel : nat,
     B64.generateHistoricalData rnd (S fuel) vid f h i w =
       Some ([], B64.mkWorld
                   (<[vid := B64.fresh_profile vid f (rnd (B64.draws w))
                               (rnd (S (B64.draws w)))]>
                      (delete vid (B64.vehicleProfiles w)))
                   (S (S (B64.draws w))))) /\
  B64.points_of 1 0 = PlusInfinity /\
  B64.points_of 1 1e-320 = PlusInfinity /\
  B64.points_of 1e307 5 = PlusInfinity /\
  B64.points_of 1 (-0) = MinusInfinity /\
  B64.points_of 0 0 = NaNBound.
Proof.
  split; [|split].
  - intros HP fuel. rewrite b64_generateHistoricalData_start. cbv zeta.
    rewrite HP. apply b64_history_loop_diverges.
  - intros HP fuel. rewrite b64_generateHistoricalData_start. cbv zeta.
    destruct HP as [-> | ->]; reflexivity.
  - repeat split; vm_compute; reflexivity.
Qed.

End Binary64Facts.

(** *** The built-in functions and the clamp on examples *)

(** [Math.round] goes to the nearest integer, halves upwards, and keeps
    the sign of zero; [Math.max] and [Math.min] order the two zeros. *)
Lemma b64_Math_examples :
  B64.Math_round 2.5 = 3%float /\
  B64.Math_round (-2.5) = (-2)%float /\
  B64.Math_round 0.49999999999999994 = 0%float /\
  B64.Math_round (-0.2) = (-0)%float /\
  B64.Math_round 24.000000000000004 = 24%float /\
  B64.Math_round 4503599627370497 = 4503599627370497%float /\
  B64.Math_max 0 (-0) = 0%float /\
  B64.Math_max (-0) 0 = 0%float /\
  B64.Math_min 0 (-0) = (-0)%float /\
  B64.Math_min 3 2 = 2%float /\
  B64.Math_max 1 nan = nan.
Proof. vm_compute. repeat split; reflexivity. Qed.

(** The clamp brings a value into its interval and leaves a value of the
    interval alone; the rounding keeps one decimal, halves upwards. *)
Lemma b64_spec_examples :
  B64.spec_clamp 12 1 = 2.4000000000000004%float /\
  B64.spec_clamp 12 30 = 24%float /\
  B64.spec_clamp 12 7.5 = 7.5%float /\
  B64.spec_clamp 0 11 = 10%float /\
  B64.spec_clamp 0 (-1) = 0%float /\
  B64.spec_clamp 0 3.25 = 3.25%float /\
  B64.spec_round1 7.25 = 7.3%float /\
  B64.spec_round1 7.34 = 7.3%float /\
  B64.spec_round1 0.04 = 0%float /\
  B64.spec_round1 461.24999999999994 = 461.2%float /\
  B64.spec_round1 2.4000000000000004 = 2.4%float.
Proof. vm_compute. repeat split; reflexivity. Qed.

(** On the inputs where exact arithmetic and binary64 part: the trend
    multiplier [0.95 + 0.75 * 0.1] applied to 450 gives
    461.24999999999994, which rounds to 461.2. *)
Lemma b64_rounding_example :
  fst (B64.generateValue B64.always_half 0.2 (0.95 + 0.75 * 0.1) 450 (Some 450%float)
         (-0.2 * 0.85) (0.2 * 0.85) B64.empty_world)
  = 461.2%float.
Proof. vm_compute. reflexivity. Qed.


(** Against claim C7 as stated: for a negative span the loop body never
    runs and the result is empty, while
    [floor(hoursBack*60/intervalMinutes) + 1] is [-11]; and for
    [hoursBack] and [intervalMinutes] both 1.1 the binary64 quotient is
    59.999999999999993, so the code returns 60 readings where the exact
    quotient 60 gives 61. *)
Lemma b64_history_of_negative_span :
  option_map (fun res => length (fst res))
    (B64.generateHistoricalData B64.always_half 1 1 "petrol" (-1) (Some 5%float)
       B64.empty_world)
    = Some 0%nat /\
  B64.points_of (-1) 5 = Finite (-12) /\
  option_map (fun res => length (fst res))
    (B64.generateHistoricalData B64.always_half 100 1 "petrol" 1.1
       (Some 1.1%float) B64.empty_world)
    = Some 60%nat /\
  (Qfloor ((11 # 10) * 60 / (11 # 10)) + 1)%Z = 61%Z.
Proof. vm_compute. repeat split; reflexivity. Qed.

Lemma b64_history_length_witness :
  exists (data : list B64.EmissionBaseline) (w' : B64.World),
    B64.generateHistoricalData B64.always_half 300 1 "petrol" 24 None
      B64.empty_world = Some (data, w') /\
    length data = 289%nat.
Proof.
  destruct (b64_history_length B64.always_half 1 "petrol" 24 None
              B64.empty_world 300 288)
    as (data & w' & H1 & H2 & _).
  - vm_compute. reflexivity.
  - vm_compute. reflexivity.
  - vm_compute. lia.
  - exists data, w'. split; [exact H1|exact H2].
Defined.

Lemma b64_history_without_finite_bound_witness :
  B64.generateHistoricalData B64.always_half 7 1 "petrol" 1 (Some 0%float)
    B64.empty_world = None.
Proof.
  apply (b64_history_without_finite_bound B64.always_half 1 "petrol" 1
           (Some 0%float) B64.empty_world).
  vm_compute. reflexivity.
Defined.
